(** * Technician scheduling of the Dern-Support application

    A shallow embedding of the scheduling code of the backend:

    - the Mongoose models [User], [SupportRequest] and [Schedule]
      (backend/models),
    - the Express handlers [createSchedule] and [updateSchedule] of the
      scheduling controller, with the conflict query they run inline,
    - the scheduling service: [checkScheduleConflicts],
      [getAvailableTechnicians], [createSchedule], [autoAssignTechnician],
      [deleteSchedule], [getTechnicianSchedules], on the documents the
      schemas admit.

    Conventions of the embedding.

    - An ObjectId is a natural number; a collection is the list of its
      documents in insertion order; [findById] is the first document with
      that id.
    - A [Date] is its [getTime()] value, an integer number of milliseconds.
    - String enums of the schemas are inductive types: request bodies and
      documents range over values the schema validators accept.  The status
      of a support request stays a string, because the scheduling service
      stores values outside the schema enum in it.
    - A handler is a function from the request and the store to the new store
      and the response [res.status(code).json(payload)].
    - The [createdAt]/[updatedAt] stamps of the controller documents are not
      part of the model. *)

From Stdlib Require Import ZArith List String Bool Lia Arith.
From Stdlib Require Import Sorted Permutation Ascii.
Import ListNotations.

Definition ObjectId := nat.
Definition Date := Z.
Bind Scope Z_scope with Date.

Inductive UserType := admin | technician | business | individual.
Inductive ScheduleStatus := scheduled | in_progress | completed | cancelled | rescheduled.
Inductive Priority := low | medium | high | critical.

Scheme Equality for UserType.
Scheme Equality for ScheduleStatus.

(** [location] of the schedule schema. *)
Record Location := {
  address : string;
  city : string;
  state : string;
  zipCode : string;
  country : string;
  coordinates : option (Z * Z)
}.

(** ** Models *)

Module User.
Record t := { _id : ObjectId; userType : UserType }.
End User.

Module SupportRequest.
(** An entry of the [history] array. *)
Record HistoryEntry := {
  action : string;
  performedBy : ObjectId;
  details : string;
  detailsTechnicianId : option ObjectId
}.

(** [location] is no path of the support request schema; the scheduling
    service reads it all the same, so the document carries it. *)
Record t := {
  _id : ObjectId;
  user : ObjectId;
  title : string;
  description : string;
  priority : Priority;
  status : string;
  assignedTo : option ObjectId;
  history : list HistoryEntry;
  location : option string
}.
End SupportRequest.

Module Schedule.
(** [scheduleSchema]: [technician], [supportRequest], [scheduledStart],
    [scheduledEnd] and [createdBy] are required. *)
Record t := {
  _id : ObjectId;
  technician : ObjectId;
  supportRequest : ObjectId;
  scheduledStart : Date;
  scheduledEnd : Date;
  status : ScheduleStatus;
  notes : option string;
  priority : Priority;
  location : option Location;
  createdBy : ObjectId
}.

(** Defaults of the schema for paths a new document leaves out. *)
Definition default_status : ScheduleStatus := scheduled.
Definition default_priority : Priority := medium.
End Schedule.

(** ** The store *)

Record DB := {
  users : list User.t;
  supportRequests : list SupportRequest.t;
  schedules : list Schedule.t
}.

Definition User_findById (id : option ObjectId) (db : DB) : option User.t :=
  match id with
  | None => None
  | Some i => find (fun u => Nat.eqb (User._id u) i) (users db)
  end.

Definition SupportRequest_findById (id : option ObjectId) (db : DB)
  : option SupportRequest.t :=
  match id with
  | None => None
  | Some i => find (fun r => Nat.eqb (SupportRequest._id r) i) (supportRequests db)
  end.

Definition Schedule_findById (id : ObjectId) (db : DB) : option Schedule.t :=
  find (fun s => Nat.eqb (Schedule._id s) id) (schedules db).

(** The id of a new document: larger than every id of the collection. *)
Definition fresh_id (l : list Schedule.t) : ObjectId :=
  S (list_max (map Schedule._id l)).

(** [schedule.save()] of a new document. *)
Definition Schedule_insert (s : Schedule.t) (db : DB) : DB :=
  {| users := users db;
     supportRequests := supportRequests db;
     schedules := schedules db ++ [s] |}.

(** [schedule.save()] of a document loaded with [findById]: the document
    of that id is replaced. *)
Definition Schedule_save (s : Schedule.t) (db : DB) : DB :=
  {| users := users db;
     supportRequests := supportRequests db;
     schedules :=
       map (fun d => if Nat.eqb (Schedule._id d) (Schedule._id s) then s else d)
           (schedules db) |}.

(** [supportRequest.save()]. *)
Definition SupportRequest_save (r : SupportRequest.t) (db : DB) : DB :=
  {| users := users db;
     supportRequests :=
       map (fun d => if Nat.eqb (SupportRequest._id d) (SupportRequest._id r)
                     then r else d)
           (supportRequests db);
     schedules := schedules db |}.

(** ** The scheduling controller *)

Module SchedulingController.

(** [req.user], as the auth middleware leaves it. *)
Record ReqUser := { userId : ObjectId; userType : UserType }.

(** [req.body].  Ids, dates, statuses and priorities arrive as strings:
    [None] is a key that is missing or the empty string (empty for
    [notEmpty], falsy for [||] and [?:]), [Some] a string that casts to the
    value.  For [supportRequestId], which no validator checks and which
    goes to [findById] as it is, [None] is the missing key only.  The
    record has the keys either handler reads, and [technician] and
    [createdBy], which a client may send and no handler reads. *)
Module Body.
Record t := {
  technicianId : option ObjectId;
  supportRequestId : option ObjectId;
  scheduledStart : option Date;
  scheduledEnd : option Date;
  status : option ScheduleStatus;
  notes : option string;
  priority : option Priority;
  location : option Location;
  technician : option ObjectId;
  createdBy : option ObjectId
}.
End Body.

Inductive Payload :=
| Message (message : string)
| Errors (errors : list string)
| Conflicts (message : string) (conflicts : list Schedule.t)
| Created (message : string) (scheduleId : ObjectId)
| Updated (message : string) (schedule : Schedule.t).

Record Response := { code : nat; json : Payload }.

Definition respond (c : nat) (p : Payload) : Response :=
  {| code := c; json := p |}.

(** [status: { $nin: ['completed', 'cancelled'] }] *)
Definition nin_terminal (st : ScheduleStatus) : bool :=
  negb (existsb (ScheduleStatus_beq st) [completed; cancelled]).

(** [scheduledStart: { $lt: end }, scheduledEnd: { $gt: start }] *)
Definition window_overlaps (start end_ : Date) (c : Schedule.t) : bool :=
  Z.ltb (Schedule.scheduledStart c) end_ && Z.gtb (Schedule.scheduledEnd c) start.

(** The conflict query of both handlers; [exclude] is the
    [_id: { $ne: id }] clause of [updateSchedule]. *)
Definition findConflicts (tech : ObjectId) (start end_ : Date)
           (exclude : option ObjectId) (db : DB) : list Schedule.t :=
  filter (fun c =>
            match exclude with
            | Some id => negb (Nat.eqb (Schedule._id c) id)
            | None => true
            end
            && Nat.eqb (Schedule.technician c) tech
            && window_overlaps start end_ c
            && nin_terminal (Schedule.status c))
         (schedules db).

(** The validation chain of [POST /schedule]: three [notEmpty] checks.  The
    check of [supportRequestId] is written [!check(...)] in the route, which
    is the value [false] and no validator. *)
Definition validationResult (body : Body.t) : list string :=
  (match Body.technicianId body with
   | None => ["Technician ID is required"%string] | Some _ => [] end)
  ++ (match Body.scheduledStart body with
      | None => ["Scheduled start time is required"%string] | Some _ => [] end)
  ++ (match Body.scheduledEnd body with
      | None => ["Scheduled end time is required"%string] | Some _ => [] end).

Definition assign_request (user : ReqUser) (tid : ObjectId)
           (r : SupportRequest.t) : SupportRequest.t :=
  {| SupportRequest._id := SupportRequest._id r;
     SupportRequest.user := SupportRequest.user r;
     SupportRequest.title := SupportRequest.title r;
     SupportRequest.description := SupportRequest.description r;
     SupportRequest.priority := SupportRequest.priority r;
     SupportRequest.status := "assigned";
     SupportRequest.assignedTo := Some tid;
     SupportRequest.history :=
       SupportRequest.history r ++
       [{| SupportRequest.action := "assigned";
           SupportRequest.performedBy := userId user;
           SupportRequest.details := "Request assigned to technician";
           SupportRequest.detailsTechnicianId := Some tid |}];
     SupportRequest.location := SupportRequest.location r |}.

(** [new Schedule({...})] of [createSchedule].  [supportRequest] is the
    document that [findById(supportRequestId)] returned, so its id is the
    [supportRequestId] of the body. *)
Definition newSchedule (user : ReqUser) (body : Body.t) (tid : ObjectId)
           (start end_ : Date) (supportRequest : SupportRequest.t) (db : DB)
  : Schedule.t :=
  {| Schedule._id := fresh_id (schedules db);
     Schedule.technician := tid;
     Schedule.supportRequest := SupportRequest._id supportRequest;
     Schedule.scheduledStart := start;
     Schedule.scheduledEnd := end_;
     Schedule.status := scheduled;
     Schedule.notes := Body.notes body;
     Schedule.priority :=
       match Body.priority body with
       | Some p => p
       | None => SupportRequest.priority supportRequest
       end;
     Schedule.location := Body.location body;
     Schedule.createdBy := userId user |}.

(** [createSchedule] from [await schedule.save()] to its response. *)
Definition persist_and_respond (user : ReqUser) (tid : ObjectId)
           (schedule : Schedule.t) (supportRequest : SupportRequest.t)
           (db : DB) : DB * Response :=
  let db1 := Schedule_insert schedule db in
  let db2 :=
    if String.eqb (SupportRequest.status supportRequest) "new"
    then SupportRequest_save (assign_request user tid supportRequest) db1
    else db1 in
  (db2, respond 201 (Created "Schedule created successfully"
                             (Schedule._id schedule))).

Definition createSchedule (user : ReqUser) (body : Body.t) (db : DB)
  : DB * Response :=
  if negb (UserType_beq (userType user) admin) then
    (db, respond 403 (Message "Access denied"))
  else
    match validationResult body,
          Body.technicianId body, Body.scheduledStart body,
          Body.scheduledEnd body with
    | [], Some tid, Some start, Some end_ =>
      match User_findById (Some tid) db with
      | None => (db, respond 400 (Message "Invalid technician"))
      | Some tech =>
        if negb (UserType_beq (User.userType tech) technician) then
          (db, respond 400 (Message "Invalid technician"))
        else
          match SupportRequest_findById (Body.supportRequestId body) db with
          | None => (db, respond 400 (Message "Invalid support request"))
          | Some supportRequest =>
            let conflicts := findConflicts tid start end_ None db in
            if Nat.ltb 0 (List.length conflicts) then
              (db, respond 400
                           (Conflicts "Scheduling conflict detected" conflicts))
            else
              persist_and_respond
                user tid
                (newSchedule user body tid start end_ supportRequest db)
                supportRequest db
          end
      end
    | errors, _, _, _ => (db, respond 400 (Errors errors))
    end.

(** Assignments to the paths of a loaded schedule document. *)
Definition set_window (start end_ : Date) (s : Schedule.t) : Schedule.t :=
  {| Schedule._id := Schedule._id s;
     Schedule.technician := Schedule.technician s;
     Schedule.supportRequest := Schedule.supportRequest s;
     Schedule.scheduledStart := start;
     Schedule.scheduledEnd := end_;
     Schedule.status := Schedule.status s;
     Schedule.notes := Schedule.notes s;
     Schedule.priority := Schedule.priority s;
     Schedule.location := Schedule.location s;
     Schedule.createdBy := Schedule.createdBy s |}.

Definition set_status_notes (st : ScheduleStatus) (n : option string)
           (s : Schedule.t) : Schedule.t :=
  {| Schedule._id := Schedule._id s;
     Schedule.technician := Schedule.technician s;
     Schedule.supportRequest := Schedule.supportRequest s;
     Schedule.scheduledStart := Schedule.scheduledStart s;
     Schedule.scheduledEnd := Schedule.scheduledEnd s;
     Schedule.status := st;
     Schedule.notes := n;
     Schedule.priority := Schedule.priority s;
     Schedule.location := Schedule.location s;
     Schedule.createdBy := Schedule.createdBy s |}.

(** [x || old] and [x ? new Date(x) : old] on an optional key. *)
Definition or_else {A : Type} (x : option A) (old : A) : A :=
  match x with Some v => v | None => old end.

(** [notes || schedule.notes]: the empty string is falsy too. *)
Definition or_notes (n old : option string) : option string :=
  match n with
  | Some s => if String.eqb s EmptyString then old else Some s
  | None => old
  end.

Definition truthy {A : Type} (x : option A) : bool :=
  match x with Some _ => true | None => false end.

(** [status === 'completed'] on the key of the body. *)
Definition is_completed (st : option ScheduleStatus) : bool :=
  match st with Some s => ScheduleStatus_beq s completed | None => false end.

Definition resolve_request (user : ReqUser) (r : SupportRequest.t)
  : SupportRequest.t :=
  {| SupportRequest._id := SupportRequest._id r;
     SupportRequest.user := SupportRequest.user r;
     SupportRequest.title := SupportRequest.title r;
     SupportRequest.description := SupportRequest.description r;
     SupportRequest.priority := SupportRequest.priority r;
     SupportRequest.status := "resolved";
     SupportRequest.assignedTo := SupportRequest.assignedTo r;
     SupportRequest.history :=
       SupportRequest.history r ++
       [{| SupportRequest.action := "resolved";
           SupportRequest.performedBy := userId user;
           SupportRequest.details := "Support request resolved";
           SupportRequest.detailsTechnicianId := None |}];
     SupportRequest.location := SupportRequest.location r |}.

(** [updateSchedule] from [await schedule.save()] to its response.
    [schedule] is the loaded document after the assignments of the handler:
    the test [schedule.status !== 'completed'] reads the status that was
    just assigned. *)
Definition save_and_respond (user : ReqUser) (body : Body.t)
           (schedule : Schedule.t) (db : DB) : DB * Response :=
  let db1 := Schedule_save schedule db in
  let db2 :=
    if is_completed (Body.status body)
       && negb (ScheduleStatus_beq (Schedule.status schedule) completed)
    then
      match SupportRequest_findById (Some (Schedule.supportRequest schedule)) db1
      with
      | Some supportRequest =>
        if negb (String.eqb (SupportRequest.status supportRequest) "resolved")
        then SupportRequest_save (resolve_request user supportRequest) db1
        else db1
      | None => db1
      end
    else db1 in
  (db2, respond 200 (Updated "Schedule updated successfully" schedule)).

Definition updateSchedule (user : ReqUser) (id : ObjectId) (body : Body.t)
           (db : DB) : DB * Response :=
  if negb (UserType_beq (userType user) admin)
     && negb (UserType_beq (userType user) technician) then
    (db, respond 403 (Message "Access denied"))
  else
    match Schedule_findById id db with
    | None => (db, respond 404 (Message "Schedule not found"))
    | Some schedule =>
      if UserType_beq (userType user) technician
         && negb (Nat.eqb (Schedule.technician schedule) (userId user)) then
        (db, respond 403 (Message "You can only update your own schedules"))
      else if UserType_beq (userType user) technician then
        let schedule1 :=
          set_status_notes
            (or_else (Body.status body) (Schedule.status schedule))
            (or_notes (Body.notes body) (Schedule.notes schedule))
            schedule in
        save_and_respond user body schedule1 db
      else
        let schedule1 :=
          set_status_notes
            (or_else (Body.status body) (Schedule.status schedule))
            (or_notes (Body.notes body) (Schedule.notes schedule))
            (set_window
               (or_else (Body.scheduledStart body) (Schedule.scheduledStart schedule))
               (or_else (Body.scheduledEnd body) (Schedule.scheduledEnd schedule))
               schedule) in
        if truthy (Body.scheduledStart body) || truthy (Body.scheduledEnd body)
        then
          let newStart :=
            or_else (Body.scheduledStart body) (Schedule.scheduledStart schedule1) in
          let newEnd :=
            or_else (Body.scheduledEnd body) (Schedule.scheduledEnd schedule1) in
          let conflicts :=
            findConflicts (Schedule.technician schedule1) newStart newEnd
                          (Some id) db in
          if Nat.ltb 0 (List.length conflicts) then
            (db, respond 400
                         (Conflicts "Scheduling conflict detected" conflicts))
          else save_and_respond user body schedule1 db
        else save_and_respond user body schedule1 db
    end.

End SchedulingController.

(** ** The scheduling service *)

Module SchedulingService.

(** The service works on the collections of the models: a stored schedule
    is a document of [scheduleSchema], with its window at [scheduledStart]
    and [scheduledEnd].  The service itself names the window [startTime]
    and [endTime], in the objects it builds and in the filters it sends;
    these are no paths of the schema.  [ScheduleData] is the object handed
    to [createSchedule], with the keys the service reads and the keys
    [autoAssignTechnician] writes; [status] and [priority] are keys of the
    schema that the object may leave out. *)
Module ScheduleData.
Record t := {
  title : string;
  description : string;
  technician : ObjectId;
  supportRequest : option ObjectId;
  startTime : Date;
  endTime : Date;
  location : string;
  status : option ScheduleStatus;
  priority : option Priority
}.
End ScheduleData.

(** A notification, without its message text (a formatted date). *)
Module Notification.
Record t := {
  user : ObjectId;
  title : string;
  type : string;
  relatedToModel : string;
  relatedToId : ObjectId
}.
End Notification.

Record Store := {
  users : list User.t;
  supportRequests : list SupportRequest.t;
  schedules : list Schedule.t;
  notifications : list Notification.t
}.

(** A returned value or a thrown [Error(message)]. *)
Inductive Result (A : Type) :=
| Return (a : A)
| Throw (message : string).
Arguments Return {A} a.
Arguments Throw {A} message.

(** What an [async] function of the scheduling service settles to: the
    value it returns, or the exception it throws, which is an
    [Error(message)] of the service or the [ValidationError] with which
    the named model rejects a document. *)
Inductive Exception :=
| Error (message : string)
| ValidationError (model : string).

Inductive Settled (A : Type) :=
| Fulfilled (a : A)
| Rejected (e : Exception).
Arguments Fulfilled {A} a.
Arguments Rejected {A} e.

(** A function of the service as a computation on the store.
    [x <- m ;; k] is [const x = await m; k]: an exception of [m] ends the
    function, with the store as [m] left it.  The [catch] blocks of the
    service log the exception and throw it again. *)
Definition M (A : Type) : Type := Store -> Store * Settled A.

Definition ret {A : Type} (a : A) : M A := fun st => (st, Fulfilled a).

Definition throw {A : Type} (e : Exception) : M A := fun st => (st, Rejected e).

Definition bind {A B : Type} (m : M A) (k : A -> M B) : M B :=
  fun st =>
    match m st with
    | (st', Fulfilled a) => k a st'
    | (st', Rejected e) => (st', Rejected e)
    end.

(** A read of the store. *)
Definition query {A : Type} (f : Store -> A) : M A :=
  fun st => (st, Fulfilled (f st)).

Module MonadNotation.
Notation "x <- m ;; k" := (bind m (fun x => k))
  (at level 61, m at next level, right associativity).
End MonadNotation.
Import MonadNotation.

(** *** Filters *)

(** The date a stored schedule has at a path of a filter: the schema has
    the date paths [scheduledStart] and [scheduledEnd] (and the stamps,
    which no filter of the service names); at [startTime] and [endTime] a
    document has nothing. *)
Definition date_at (path : string) (c : Schedule.t) : option Date :=
  if String.eqb path "scheduledStart" then Some (Schedule.scheduledStart c)
  else if String.eqb path "scheduledEnd" then Some (Schedule.scheduledEnd c)
  else None.

(** The comparison operators of a filter. *)
Inductive Operator := LT | GT | LTE | GTE.

Definition compare (op : Operator) (value bound : Date) : bool :=
  match op with
  | LT => Z.ltb value bound
  | GT => Z.gtb value bound
  | LTE => Z.leb value bound
  | GTE => Z.geb value bound
  end.

(** The clause [path: { $op: bound }]: a document matches when it has a
    date at [path] and the date compares so with [bound]; a document
    without the path does not match. *)
Definition clause (path : string) (op : Operator) (bound : Date)
           (c : Schedule.t) : bool :=
  match date_at path c with
  | Some value => compare op value bound
  | None => false
  end.

(** [{ technician, startTime: { $lt: endTime }, endTime: { $gt: startTime } }],
    and [_id: { $ne: excludeScheduleId }] when an id is given. *)
Definition checkScheduleConflicts (technicianId : ObjectId)
           (startTime endTime : Date) (excludeScheduleId : option ObjectId)
           (st : Store) : list Schedule.t :=
  filter (fun c =>
            Nat.eqb (Schedule.technician c) technicianId
            && clause "startTime" LT endTime c
            && clause "endTime" GT startTime c
            && match excludeScheduleId with
               | Some id => negb (Nat.eqb (Schedule._id c) id)
               | None => true
               end)
         (schedules st).

(** [Schedule.find({ startTime: { $lt: endTime }, endTime: { $gt: startTime } })
    .distinct('technician')] *)
Definition busyTechnicians (startTime endTime : Date) (st : Store)
  : list ObjectId :=
  nodup Nat.eq_dec
        (map Schedule.technician
             (filter (fun c => clause "startTime" LT endTime c
                               && clause "endTime" GT startTime c)
                     (schedules st))).

(** The projection [select('_id firstName lastName email')] is not
    modelled: the result lists the user documents themselves. *)
Definition getAvailableTechnicians (startTime endTime : Date) (st : Store)
  : list User.t :=
  let technicians :=
    filter (fun u => UserType_beq (User.userType u) technician) (users st) in
  let busy := busyTechnicians startTime endTime st in
  filter (fun tech => negb (existsb (fun id => Nat.eqb id (User._id tech)) busy))
         technicians.

(** *** Documents *)

(** [new Schedule(obj)]: the schema is strict, so the document takes the
    keys of [obj] that are paths of the schema and drops the others.  Of a
    [ScheduleData] that leaves [technician], [supportRequest], [status] and
    [priority]: [title], [description], [startTime] and [endTime] are no
    paths, and the string at [location] is no value of the nested path
    [location]. *)
Module Draft.
Record t := {
  technician : option ObjectId;
  supportRequest : option ObjectId;
  scheduledStart : option Date;
  scheduledEnd : option Date;
  status : option ScheduleStatus;
  notes : option string;
  priority : option Priority;
  location : option Location;
  createdBy : option ObjectId
}.
End Draft.

Definition cast (d : ScheduleData.t) : Draft.t :=
  {| Draft.technician := Some (ScheduleData.technician d);
     Draft.supportRequest := ScheduleData.supportRequest d;
     Draft.scheduledStart := None;
     Draft.scheduledEnd := None;
     Draft.status := ScheduleData.status d;
     Draft.notes := None;
     Draft.priority := ScheduleData.priority d;
     Draft.location := None;
     Draft.createdBy := None |}.

(** Validation on save: the paths the schema marks [required] must be
    there; [status] and [priority] take their defaults when left out. *)
Definition validate (id : ObjectId) (d : Draft.t) : option Schedule.t :=
  match Draft.technician d, Draft.supportRequest d,
        Draft.scheduledStart d, Draft.scheduledEnd d, Draft.createdBy d with
  | Some tech, Some request, Some start, Some end_, Some author =>
    Some {| Schedule._id := id;
            Schedule.technician := tech;
            Schedule.supportRequest := request;
            Schedule.scheduledStart := start;
            Schedule.scheduledEnd := end_;
            Schedule.status :=
              match Draft.status d with
              | Some s => s | None => Schedule.default_status end;
            Schedule.notes := Draft.notes d;
            Schedule.priority :=
              match Draft.priority d with
              | Some p => p | None => Schedule.default_priority end;
            Schedule.location := Draft.location d;
            Schedule.createdBy := author |}
  | _, _, _, _, _ => None
  end.

(** [Schedule.create({...scheduleData, createdAt})] *)
Definition Schedule_create (d : ScheduleData.t) : M Schedule.t :=
  fun st =>
    match validate (fresh_id (schedules st)) (cast d) with
    | Some schedule =>
      ({| users := users st;
          supportRequests := supportRequests st;
          schedules := schedules st ++ [schedule];
          notifications := notifications st |},
       Fulfilled schedule)
    | None => (st, Rejected (ValidationError "Schedule"))
    end.

(** The enums of [NotificationSchema] for [type] and [relatedTo.model]. *)
Definition notificationTypes : list string :=
  ["support_request"%string; "knowledge_base"%string; "system"%string;
   "admin"%string].

Definition relatedToModels : list string :=
  ["SupportRequest"%string; "KnowledgeArticle"%string; "User"%string].

Definition member (s : string) (l : list string) : bool :=
  existsb (String.eqb s) l.

(** [Notification.create(n)]: the document is validated against the enums
    and stored. *)
Definition Notification_create (n : Notification.t) : M unit :=
  fun st =>
    if member (Notification.type n) notificationTypes
       && member (Notification.relatedToModel n) relatedToModels
    then
      ({| users := users st;
          supportRequests := supportRequests st;
          schedules := schedules st;
          notifications := notifications st ++ [n] |},
       Fulfilled tt)
    else (st, Rejected (ValidationError "Notification")).

Definition set_request_status (s : string) (r : SupportRequest.t)
  : SupportRequest.t :=
  {| SupportRequest._id := SupportRequest._id r;
     SupportRequest.user := SupportRequest.user r;
     SupportRequest.title := SupportRequest.title r;
     SupportRequest.description := SupportRequest.description r;
     SupportRequest.priority := SupportRequest.priority r;
     SupportRequest.status := s;
     SupportRequest.assignedTo := SupportRequest.assignedTo r;
     SupportRequest.history := SupportRequest.history r;
     SupportRequest.location := SupportRequest.location r |}.

Definition findRequest (id : ObjectId) (st : Store) : option SupportRequest.t :=
  find (fun r => Nat.eqb (SupportRequest._id r) id) (supportRequests st).

(** [SupportRequest.findByIdAndUpdate(id, { status })]: the first document
    with that id; the update runs no validators. *)
Fixpoint update_first (id : ObjectId) (s : string) (l : list SupportRequest.t)
  : list SupportRequest.t :=
  match l with
  | [] => []
  | r :: l' =>
    if Nat.eqb (SupportRequest._id r) id
    then set_request_status s r :: l'
    else r :: update_first id s l'
  end.

Definition SupportRequest_findByIdAndUpdate (id : ObjectId) (s : string)
  : M unit :=
  fun st =>
    ({| users := users st;
        supportRequests := update_first id s (supportRequests st);
        schedules := schedules st;
        notifications := notifications st |},
     Fulfilled tt).

(** *** The functions of the service *)

Definition createSchedule (scheduleData : ScheduleData.t) : M Schedule.t :=
  conflicts <- query (checkScheduleConflicts
                        (ScheduleData.technician scheduleData)
                        (ScheduleData.startTime scheduleData)
                        (ScheduleData.endTime scheduleData) None) ;;
  if Nat.ltb 0 (List.length conflicts) then
    throw (Error "Schedule conflicts with existing appointments")
  else
    schedule <- Schedule_create scheduleData ;;
    _ <- Notification_create
           {| Notification.user := ScheduleData.technician scheduleData;
              Notification.title := "New Schedule Assignment";
              Notification.type := "scheduling";
              Notification.relatedToModel := "Schedule";
              Notification.relatedToId := Schedule._id schedule |} ;;
    _ <- match ScheduleData.supportRequest scheduleData with
         | Some rid =>
           _ <- SupportRequest_findByIdAndUpdate rid "scheduled" ;;
           found <- query (findRequest rid) ;;
           match found with
           | Some supportRequest =>
             Notification_create
               {| Notification.user := SupportRequest.user supportRequest;
                  Notification.title := "Support Request Scheduled";
                  Notification.type := "support_request";
                  Notification.relatedToModel := "SupportRequest";
                  Notification.relatedToId :=
                    SupportRequest._id supportRequest |}
           | None => ret tt
           end
         | None => ret tt
         end ;;
    ret schedule.

Definition msPerHour : Z := 3600000.

(** The object [autoAssignTechnician] hands to [createSchedule]: it has no
    [priority] key. *)
Definition scheduleDataFor (supportRequestId : ObjectId)
           (supportRequest : SupportRequest.t) (selectedTechnician : User.t)
           (startTime endTime : Date) : ScheduleData.t :=
  {| ScheduleData.title :=
       String.append "Support for " (SupportRequest.title supportRequest);
     ScheduleData.description := SupportRequest.description supportRequest;
     ScheduleData.technician := User._id selectedTechnician;
     ScheduleData.supportRequest := Some supportRequestId;
     ScheduleData.startTime := startTime;
     ScheduleData.endTime := endTime;
     ScheduleData.location :=
       match SupportRequest.location supportRequest with
       | Some l => if String.eqb l EmptyString then "To be determined" else l
       | None => "To be determined"
       end;
     ScheduleData.status := Some scheduled;
     ScheduleData.priority := None |}.

(** [durationHours] defaults to 2.  [endTime.setHours(startTime.getHours() +
    durationHours)] moves the end by whole hours (a zone without clock
    changes). *)
Definition autoAssignTechnician (supportRequestId : ObjectId)
           (preferredDate : Date) (durationHours : option Z) : M Schedule.t :=
  found <- query (findRequest supportRequestId) ;;
  match found with
  | None => throw (Error "Support request not found")
  | Some supportRequest =>
    let startTime := preferredDate in
    let endTime :=
      (startTime
       + match durationHours with Some h => h | None => 2 end * msPerHour)%Z in
    availableTechnicians <- query (getAvailableTechnicians startTime endTime) ;;
    match availableTechnicians with
    | [] => throw (Error "No technicians available for the requested time slot")
    | selectedTechnician :: _ =>
      createSchedule
        (scheduleDataFor supportRequestId supportRequest selectedTechnician
                         startTime endTime)
    end
  end.

End SchedulingService.

(** ** Example stores and requests *)

Module Examples.
Import SchedulingController.

Definition adminUser : ReqUser := {| userId := 1; userType := admin |}.
Definition techUser : ReqUser := {| userId := 2; userType := technician |}.

Definition staff : list User.t :=
  [ {| User._id := 1; User.userType := admin |};
    {| User._id := 2; User.userType := technician |};
    {| User._id := 3; User.userType := technician |};
    {| User._id := 4; User.userType := business |} ].

Definition request (st : string) (p : Priority) : SupportRequest.t :=
  {| SupportRequest._id := 10;
     SupportRequest.user := 4;
     SupportRequest.title := "Printer offline";
     SupportRequest.description := "The office printer does not respond";
     SupportRequest.priority := p;
     SupportRequest.status := st;
     SupportRequest.assignedTo := None;
     SupportRequest.history := [];
     SupportRequest.location := None |}.

(** A schedule of technician 2 for request 10; hours 9 to 11 are written
    as the dates 9 and 11. *)
Definition visit (id : ObjectId) (start end_ : Date) (st : ScheduleStatus)
  : Schedule.t :=
  {| Schedule._id := id;
     Schedule.technician := 2;
     Schedule.supportRequest := 10;
     Schedule.scheduledStart := start;
     Schedule.scheduledEnd := end_;
     Schedule.status := st;
     Schedule.notes := None;
     Schedule.priority := medium;
     Schedule.location := None;
     Schedule.createdBy := 1 |}.

Definition store (l : list Schedule.t) : DB :=
  {| users := staff;
     supportRequests := [request "assigned" high];
     schedules := l |}.

(** The body of [POST /schedule] for technician 2 and a window. *)
Definition createBody (rid : option ObjectId) (start end_ : Date) : Body.t :=
  {| Body.technicianId := Some 2;
     Body.supportRequestId := rid;
     Body.scheduledStart := Some start;
     Body.scheduledEnd := Some end_;
     Body.status := None;
     Body.notes := None;
     Body.priority := None;
     Body.location := None;
     Body.technician := None;
     Body.createdBy := None |}.

(** A patch that sets the status only. *)
Definition statusBody (st : ScheduleStatus) : Body.t :=
  {| Body.technicianId := None;
     Body.supportRequestId := None;
     Body.scheduledStart := None;
     Body.scheduledEnd := None;
     Body.status := Some st;
     Body.notes := None;
     Body.priority := None;
     Body.location := None;
     Body.technician := None;
     Body.createdBy := None |}.

(** A patch that sends every key, to move the schedule to technician 3. *)
Definition fullBody (start end_ : Date) : Body.t :=
  {| Body.technicianId := Some 3;
     Body.supportRequestId := Some 11;
     Body.scheduledStart := Some start;
     Body.scheduledEnd := Some end_;
     Body.status := Some in_progress;
     Body.notes := Some "on site"%string;
     Body.priority := Some critical;
     Body.location := None;
     Body.technician := Some 3;
     Body.createdBy := Some 3 |}.

(** The store of the service with the users [us] and the schedules [l]. *)
Definition serviceStore (us : list User.t) (l : list Schedule.t)
  : SchedulingService.Store :=
  {| SchedulingService.users := us;
     SchedulingService.supportRequests := [request "new" high];
     SchedulingService.schedules := l;
     SchedulingService.notifications := [] |}.
End Examples.

(** ** Double booking and call sequences *)

Module Booking.
Import SchedulingController.

(** A status other than [completed] and [cancelled]. *)
Definition non_terminal (a : Schedule.t) : Prop :=
  Schedule.status a <> completed /\ Schedule.status a <> cancelled.

(** [A.scheduledStart < B.scheduledEnd] and [B.scheduledStart < A.scheduledEnd]. *)
Definition overlap (a b : Schedule.t) : Prop :=
  (Schedule.scheduledStart a < Schedule.scheduledEnd b
   /\ Schedule.scheduledStart b < Schedule.scheduledEnd a)%Z.

(** No technician has two overlapping schedules of non-terminal status. *)
Definition conflict_free (db : DB) : Prop :=
  forall a b,
    In a (schedules db) -> In b (schedules db) ->
    Schedule._id a <> Schedule._id b ->
    Schedule.technician a = Schedule.technician b ->
    non_terminal a -> non_terminal b ->
    ~ overlap a b.

(** Documents of the schedule collection have distinct ids. *)
Definition unique_ids (db : DB) : Prop :=
  NoDup (map Schedule._id (schedules db)).

(** The update turns a terminal status into a non-terminal one. *)
Definition reactivates (id : ObjectId) (body : Body.t) (db : DB) : bool :=
  match Schedule_findById id db with
  | Some schedule =>
    negb (nin_terminal (Schedule.status schedule))
    && nin_terminal (or_else (Body.status body) (Schedule.status schedule))
  | None => false
  end.

(** The update runs the conflict query: an admin sends [scheduledStart] or
    [scheduledEnd]. *)
Definition runs_conflict_check (user : ReqUser) (body : Body.t) : bool :=
  UserType_beq (userType user) admin
  && (truthy (Body.scheduledStart body) || truthy (Body.scheduledEnd body)).

(** Updates that are admitted in a call sequence. *)
Definition any_update (user : ReqUser) (id : ObjectId) (body : Body.t)
           (db : DB) : bool := true.

Definition checked_reactivation (user : ReqUser) (id : ObjectId)
           (body : Body.t) (db : DB) : bool :=
  negb (reactivates id body db) || runs_conflict_check user body.

(** Stores reached from [db0] by successful calls of [createSchedule]
    (answer 201) and [updateSchedule] (answer 200), the updates being
    among those [admitted]. *)
Inductive reachable (admitted : ReqUser -> ObjectId -> Body.t -> DB -> bool)
          (db0 : DB) : DB -> Prop :=
| reach_start : reachable admitted db0 db0
| reach_create db user body :
    reachable admitted db0 db ->
    code (snd (createSchedule user body db)) = 201 ->
    reachable admitted db0 (fst (createSchedule user body db))
| reach_update db user id body :
    reachable admitted db0 db ->
    admitted user id body db = true ->
    code (snd (updateSchedule user id body db)) = 200 ->
    reachable admitted db0 (fst (updateSchedule user id body db)).

(** The document [updateSchedule] saves for a loaded [schedule]. *)
Definition patched (user : ReqUser) (body : Body.t) (schedule : Schedule.t)
  : Schedule.t :=
  if UserType_beq (userType user) technician then
    set_status_notes
      (or_else (Body.status body) (Schedule.status schedule))
      (or_notes (Body.notes body) (Schedule.notes schedule))
      schedule
  else
    set_status_notes
      (or_else (Body.status body) (Schedule.status schedule))
      (or_notes (Body.notes body) (Schedule.notes schedule))
      (set_window
         (or_else (Body.scheduledStart body) (Schedule.scheduledStart schedule))
         (or_else (Body.scheduledEnd body) (Schedule.scheduledEnd schedule))
         schedule).

End Booking.

(** ** Sorted query results *)

(** [find(...).sort({ key: 1 })]: documents by ascending key; documents of
    equal key keep the order of the collection. *)
Fixpoint insert_by {A : Type} (key : A -> Z) (x : A) (l : list A) : list A :=
  match l with
  | [] => [x]
  | y :: l' => if Z.leb (key x) (key y) then x :: l else y :: insert_by key x l'
  end.

Definition sort_by {A : Type} (key : A -> Z) (l : list A) : list A :=
  fold_right (insert_by key) [] l.

(** ** The read handlers of the scheduling controller *)

Module SchedulingReads.
Import SchedulingController.

(** [req.query].  [None] is a parameter that is missing or empty.  The
    documents a handler returns are listed without the paths that
    [populate] adds. *)
Module Query.
Record t := {
  startDate : option Date;
  endDate : option Date;
  technicianId : option ObjectId;
  status : option ScheduleStatus;
  date : option Date
}.
End Query.

Inductive Listing :=
| Denied (message : string)
| Technicians (technicians : list User.t)
| Schedules (schedules : list Schedule.t)
| Assignments (assignments : list Schedule.t).

Definition may_read (user : ReqUser) : bool :=
  UserType_beq (userType user) admin || UserType_beq (userType user) technician.

Definition getAllTechnicians (user : ReqUser) (db : DB) : nat * Listing :=
  if negb (may_read user) then (403, Denied "Access denied")
  else
    (200, Technicians
            (filter (fun u => UserType_beq (User.userType u) technician)
                    (users db))).

(** The date clauses of [getSchedule]: [$gte] on [scheduledStart], [$lte] on
    [scheduledEnd]. *)
Definition in_range (startDate endDate : option Date) (s : Schedule.t) : bool :=
  match startDate, endDate with
  | Some a, Some b =>
    Z.leb a (Schedule.scheduledStart s) && Z.leb (Schedule.scheduledEnd s) b
  | Some a, None => Z.leb a (Schedule.scheduledStart s)
  | None, Some b => Z.leb (Schedule.scheduledEnd s) b
  | None, None => true
  end.

(** [query.technician]: the [technicianId] parameter, replaced by the id of
    the user when the user is a technician. *)
Definition queried_technician (user : ReqUser) (q : Query.t) : option ObjectId :=
  if UserType_beq (userType user) technician then Some (userId user)
  else Query.technicianId q.

Definition matches_option {A : Type} (eqb : A -> A -> bool) (wanted : option A)
           (x : A) : bool :=
  match wanted with Some w => eqb x w | None => true end.

Definition getSchedule (user : ReqUser) (q : Query.t) (db : DB) : nat * Listing :=
  if negb (may_read user) then (403, Denied "Access denied")
  else
    (200, Schedules
            (sort_by Schedule.scheduledStart
               (filter (fun s =>
                          in_range (Query.startDate q) (Query.endDate q) s
                          && matches_option Nat.eqb (queried_technician user q)
                                            (Schedule.technician s)
                          && matches_option ScheduleStatus_beq (Query.status q)
                                            (Schedule.status s))
                       (schedules db)))).

(** [getTechnicianAssignments].  [startOfDay d] and [endOfDay d] are the
    dates [setHours(0, 0, 0, 0)] and [setHours(23, 59, 59, 999)] make of [d]
    in the local time zone. *)
Definition getTechnicianAssignments (startOfDay endOfDay : Date -> Date)
           (user : ReqUser) (q : Query.t) (db : DB) : nat * Listing :=
  if negb (UserType_beq (userType user) technician) then
    (403, Denied "Access denied")
  else
    (200, Assignments
            (sort_by Schedule.scheduledStart
               (filter (fun s =>
                          Nat.eqb (Schedule.technician s) (userId user)
                          && matches_option ScheduleStatus_beq (Query.status q)
                                            (Schedule.status s)
                          && match Query.date q with
                             | Some d =>
                               Z.leb (startOfDay d) (Schedule.scheduledStart s)
                               && Z.leb (Schedule.scheduledStart s) (endOfDay d)
                             | None => true
                             end)
                       (schedules db)))).

End SchedulingReads.

(** ** Requests of the update handler *)

Module Requests.
Import SchedulingController.

(** A patch with keys that [updateSchedule] does not read, and empty
    notes. *)
Definition otherKeysBody : Body.t :=
  {| Body.technicianId := Some 3;
     Body.supportRequestId := Some 11;
     Body.scheduledStart := None;
     Body.scheduledEnd := None;
     Body.status := None;
     Body.notes := Some EmptyString;
     Body.priority := Some critical;
     Body.location := None;
     Body.technician := Some 3;
     Body.createdBy := Some 3 |}.

(** The role test of [updateSchedule]. *)
Definition may_update (user : ReqUser) : bool :=
  UserType_beq (userType user) admin || UserType_beq (userType user) technician.

End Requests.

(** ** More of the scheduling service *)

Module SchedulingServiceOps.
Import SchedulingService SchedulingService.MonadNotation.

(** [Schedule.findById] *)
Definition findSchedule (id : ObjectId) (st : Store) : option Schedule.t :=
  find (fun c => Nat.eqb (Schedule._id c) id) (schedules st).

Definition getScheduleById (scheduleId : ObjectId) (st : Store)
  : Result Schedule.t :=
  match findSchedule scheduleId st with
  | Some schedule => Return schedule
  | None => Throw "Schedule not found"
  end.

(** The [filters] of [getTechnicianSchedules]. *)
Module Filters.
Record t := { startDate : option Date; endDate : option Date }.
End Filters.

(** The clauses [getTechnicianSchedules] adds to its query for the dates
    of [filters]. *)
Definition in_filters (f : Filters.t) (c : Schedule.t) : bool :=
  match Filters.startDate f, Filters.endDate f with
  | Some a, Some b => clause "startTime" LTE b c && clause "endTime" GTE a c
  | Some a, None => clause "startTime" GTE a c
  | None, Some b => clause "endTime" LTE b c
  | None, None => true
  end.

(** [sort({ path: 1 })]: the documents without a date at [path] come
    first, then the others by ascending date.  [populate] is not
    modelled. *)
Definition sort_by_path (path : string) (l : list Schedule.t)
  : list Schedule.t :=
  filter (fun c => match date_at path c with Some _ => false | None => true end) l
  ++ sort_by (fun c => match date_at path c with Some d => d | None => 0%Z end)
             (filter (fun c => match date_at path c with
                               | Some _ => true | None => false end) l).

Definition getTechnicianSchedules (technicianId : ObjectId) (filters : Filters.t)
           (st : Store) : list Schedule.t :=
  sort_by_path "startTime"
               (filter (fun c =>
                          Nat.eqb (Schedule.technician c) technicianId
                          && in_filters filters c)
                       (schedules st)).

(** [Schedule.findByIdAndDelete]: the first document of that id leaves the
    collection and is returned. *)
Fixpoint remove_first (id : ObjectId) (l : list Schedule.t)
  : list Schedule.t :=
  match l with
  | [] => []
  | c :: l' =>
    if Nat.eqb (Schedule._id c) id then l' else c :: remove_first id l'
  end.

Definition Schedule_findByIdAndDelete (id : ObjectId) : M (option Schedule.t) :=
  fun st =>
    ({| users := users st;
        supportRequests := supportRequests st;
        schedules := remove_first id (schedules st);
        notifications := notifications st |},
     Fulfilled (findSchedule id st)).

Definition deleteSchedule (scheduleId : ObjectId) : M bool :=
  deleted <- Schedule_findByIdAndDelete scheduleId ;;
  match deleted with
  | None => throw (Error "Schedule not found")
  | Some schedule =>
    _ <- Notification_create
           {| Notification.user := Schedule.technician schedule;
              Notification.title := "Schedule Cancelled";
              Notification.type := "scheduling";
              Notification.relatedToModel := "Schedule";
              Notification.relatedToId := Schedule._id schedule |} ;;
    found <- query (findRequest (Schedule.supportRequest schedule)) ;;
    _ <- match found with
         | Some supportRequest =>
           _ <- SupportRequest_findByIdAndUpdate
                  (Schedule.supportRequest schedule) "open" ;;
           Notification_create
             {| Notification.user := SupportRequest.user supportRequest;
                Notification.title := "Schedule Cancelled";
                Notification.type := "support_request";
                Notification.relatedToModel := "SupportRequest";
                Notification.relatedToId := SupportRequest._id supportRequest |}
         | None => ret tt
         end ;;
    ret true
  end.

End SchedulingServiceOps.

(** ** The helpers of the support request service *)

Module SupportRequestService.

(** A value of a parsed JSON object; numbers are integers, [JObject] is
    an array or an object. *)
Inductive JsValue :=
| JStr (s : string)
| JNum (n : Z)
| JBool (b : bool)
| JNull
| JObject.

(** An object: its keys, each listed once, with their values.  [get] is the
    property read, [None] being [undefined]. *)
Definition JsObject := list (string * JsValue).

Fixpoint get (o : JsObject) (k : string) : option JsValue :=
  match o with
  | [] => None
  | (k', v) :: o' => if String.eqb k' k then Some v else get o' k
  end.

Definition truthy_value (v : option JsValue) : bool :=
  match v with
  | Some (JStr s) => negb (String.eqb s EmptyString)
  | Some (JNum n) => negb (Z.eqb n 0)
  | Some (JBool b) => b
  | Some JNull => false
  | Some JObject => true
  | None => false
  end.

(** [v === s] for a string literal [s]. *)
Definition is_string (v : option JsValue) (s : string) : bool :=
  match v with Some (JStr s') => String.eqb s' s | _ => false end.

(** A returned value, or a [TypeError] raised on the way. *)
Inductive Outcome (A : Type) :=
| Ok (a : A)
| TypeError.
Arguments Ok {A} a.
Arguments TypeError {A}.

Record FieldDefinition := { name : string; type : string; required : bool }.

Definition field (n t : string) (r : bool) : FieldDefinition :=
  {| name := n; type := t; required := r |}.

Definition fieldDefinitions : list (string * list FieldDefinition) :=
  [ ("hardware"%string,
     [field "deviceType" "string" true; field "model" "string" true;
      field "serialNumber" "string" false; field "purchaseDate" "date" false]);
    ("software"%string,
     [field "softwareName" "string" true; field "version" "string" true;
      field "operatingSystem" "string" true;
      field "installationDate" "date" false]);
    ("network"%string,
     [field "networkType" "string" true; field "deviceAffected" "string" true;
      field "connectionType" "string" false]);
    ("account"%string,
     [field "accountType" "string" true; field "username" "string" true;
      field "lastAccessDate" "date" false]);
    ("other"%string, [field "category" "string" false]) ].

(** The names every object literal inherits from [Object.prototype]; under
    them [fieldDefinitions[requestType]] is a function or an object, which is
    truthy and no array. *)
Definition objectPrototypeKeys : list string :=
  [ "constructor"; "__proto__"; "hasOwnProperty"; "isPrototypeOf";
    "propertyIsEnumerable"; "toLocaleString"; "toString"; "valueOf";
    "__defineGetter__"; "__defineSetter__"; "__lookupGetter__";
    "__lookupSetter__" ]%string.

Inductive Fields :=
| Definitions (l : list FieldDefinition)
| Inherited.

Fixpoint lookup_fields (t : string)
         (defs : list (string * list FieldDefinition))
  : option (list FieldDefinition) :=
  match defs with
  | [] => None
  | (k, l) :: defs' => if String.eqb k t then Some l else lookup_fields t defs'
  end.

(** [fieldDefinitions[requestType] || []] *)
Definition getDynamicFieldsForRequestType (requestType : string) : Fields :=
  match lookup_fields requestType fieldDefinitions with
  | Some l => Definitions l
  | None =>
    if existsb (String.eqb requestType) objectPrototypeKeys then Inherited
    else Definitions []
  end.

Record Validation := { valid : bool; missingFields : list string }.

(** [dynamicFields] is [None] when the argument is [undefined] or [null]:
    reading a property of it raises a [TypeError], which happens for the
    first required field. *)
Definition validateDynamicFields (requestType : string)
           (dynamicFields : option JsObject) : Outcome Validation :=
  match getDynamicFieldsForRequestType requestType with
  | Inherited => TypeError
  | Definitions l =>
    let requiredFields := map name (filter required l) in
    match requiredFields, dynamicFields with
    | _ :: _, None => TypeError
    | _, Some o =>
      let missing :=
        filter (fun f => negb (truthy_value (get o f))) requiredFields in
      Ok {| valid := Nat.eqb (List.length missing) 0;
            missingFields := missing |}
    | [], None => Ok {| valid := true; missingFields := [] |}
    end
  end.

(** [toLowerCase] on the letters A to Z. *)
Definition lower_ascii (c : ascii) : ascii :=
  let n := nat_of_ascii c in
  if Nat.leb 65 n && Nat.leb n 90 then ascii_of_nat (n + 32) else c.

Fixpoint toLowerCase (s : string) : string :=
  match s with
  | EmptyString => EmptyString
  | String c s' => String (lower_ascii c) (toLowerCase s')
  end.

(** [s.includes(needle)] *)
Fixpoint includes (needle s : string) : bool :=
  String.prefix needle s
  || match s with
     | EmptyString => false
     | String _ s' => includes needle s'
     end.

Definition add_if (b : bool) (n score : Z) : Z :=
  if b then (score + n)%Z else score.

(** The score of the request type. *)
Definition type_score (requestType : string) : Z :=
  add_if (String.eqb requestType "account") 1
    (add_if (String.eqb requestType "software") 2
       (add_if (String.eqb requestType "network") 4
          (add_if (String.eqb requestType "hardware") 3 0))).

(** The score after the tests of [deviceType] and [networkType]. *)
Definition device_score (o : JsObject) (score : Z) : Z :=
  add_if (is_string (get o "networkType") "intranet") 3
    (add_if (is_string (get o "networkType") "internet") 4
       (add_if (is_string (get o "deviceType") "workstation") 3
          (add_if (is_string (get o "deviceType") "server") 5 score))).

Definition priority_of_score (score : Z) : Priority :=
  if Z.leb 8 score then critical
  else if Z.leb 5 score then high
  else if Z.leb 3 score then medium
  else low.

(** A truthy [softwareName] that is no string has no [toLowerCase]: the
    call raises a [TypeError]. *)
Definition calculatePriority (requestType : string)
           (dynamicFields : option JsObject) : Outcome Priority :=
  match dynamicFields with
  | None => Ok (priority_of_score (type_score requestType))
  | Some o =>
    let score := device_score o (type_score requestType) in
    if truthy_value (get o "softwareName") then
      match get o "softwareName" with
      | Some (JStr s) =>
        Ok (priority_of_score
              (add_if (includes "critical" (toLowerCase s)) 4 score))
      | _ => TypeError
      end
    else Ok (priority_of_score score)
  end.

(** low < medium < high < critical *)
Definition priority_rank (p : Priority) : nat :=
  match p with low => 0 | medium => 1 | high => 2 | critical => 3 end.

(** [o] with a value under each of the keys [ks]. *)
Definition fill (ks : list string) (v : JsValue) (o : JsObject) : JsObject :=
  map (fun k => (k, v)) ks ++ o.

End SupportRequestService.

(** ** The notification service *)

Module NotificationService.
Import SchedulingService.

(** A document of [NotificationSchema]. *)
Module Doc.
Record t := {
  _id : ObjectId;
  user : ObjectId;
  title : string;
  message : string;
  type : string;
  relatedToModel : option string;
  relatedToId : option ObjectId;
  isRead : bool;
  createdAt : Date
}.
End Doc.

Definition Collection := list Doc.t.

Definition set_read (n : Doc.t) : Doc.t :=
  {| Doc._id := Doc._id n;
     Doc.user := Doc.user n;
     Doc.title := Doc.title n;
     Doc.message := Doc.message n;
     Doc.type := Doc.type n;
     Doc.relatedToModel := Doc.relatedToModel n;
     Doc.relatedToId := Doc.relatedToId n;
     Doc.isRead := true;
     Doc.createdAt := Doc.createdAt n |}.

(** [{ _id: notificationId, user: userId }] *)
Definition owned (notificationId userId : ObjectId) (n : Doc.t) : bool :=
  Nat.eqb (Doc._id n) notificationId && Nat.eqb (Doc.user n) userId.

(** [findOneAndUpdate(filter, { isRead: true }, { new: true })]: the first
    document that matches is updated and returned. *)
Fixpoint findOneAndSetRead (p : Doc.t -> bool) (l : Collection)
  : Collection * option Doc.t :=
  match l with
  | [] => ([], None)
  | n :: l' =>
    if p n then (set_read n :: l', Some (set_read n))
    else let (l'', r) := findOneAndSetRead p l' in (n :: l'', r)
  end.

Definition markNotificationAsRead (notificationId userId : ObjectId)
           (l : Collection) : Collection * Result Doc.t :=
  match findOneAndSetRead (owned notificationId userId) l with
  | (l', Some notification) => (l', Return notification)
  | (l', None) =>
    (l', Throw "Notification not found or does not belong to the user")
  end.

(** [updateMany({ user, isRead: false }, { isRead: true })]; [count] is the
    number of documents it modified. *)
Definition unread_of (userId : ObjectId) (n : Doc.t) : bool :=
  Nat.eqb (Doc.user n) userId && negb (Doc.isRead n).

Definition markAllNotificationsAsRead (userId : ObjectId) (l : Collection)
  : Collection * nat :=
  (map (fun n => if unread_of userId n then set_read n else n) l,
   List.length (filter (unread_of userId) l)).

(** [findOneAndDelete]: the first document that matches leaves the
    collection. *)
Fixpoint findOneAndDelete (p : Doc.t -> bool) (l : Collection)
  : Collection * option Doc.t :=
  match l with
  | [] => ([], None)
  | n :: l' =>
    if p n then (l', Some n)
    else let (l'', r) := findOneAndDelete p l' in (n :: l'', r)
  end.

Definition deleteNotification (notificationId userId : ObjectId)
           (l : Collection) : Collection * Result bool :=
  match findOneAndDelete (owned notificationId userId) l with
  | (l', Some _) => (l', Return true)
  | (l', None) =>
    (l', Throw "Notification not found or does not belong to the user")
  end.

Definition getUnreadNotificationCount (userId : ObjectId) (l : Collection)
  : nat :=
  List.length (filter (unread_of userId) l).

(** The notifications of the users other than [userId]. *)
Definition others (userId : ObjectId) (l : Collection) : Collection :=
  filter (fun n => negb (Nat.eqb (Doc.user n) userId)) l.

(** The [filters] and [pagination] of [getUserNotifications].  [page] and
    [limit] are what [parseInt] makes of the fields, [None] being [NaN]. *)
Module Filters.
Record t := { isRead : option bool; type : option string }.
End Filters.

Module Pagination.
Record t := { page : option Z; limit : option Z }.
End Pagination.

(** [parseInt(x, 10) || d]: [NaN] and 0 give the default. *)
Definition or_default (x : option Z) (d : Z) : Z :=
  match x with
  | Some n => if Z.eqb n 0 then d else n
  | None => d
  end.

Definition matches_filters (userId : ObjectId) (f : Filters.t) (n : Doc.t)
  : bool :=
  Nat.eqb (Doc.user n) userId
  && match Filters.isRead f with
     | Some b => Bool.eqb (Doc.isRead n) b
     | None => true
     end
  && match Filters.type f with
     | Some t => if String.eqb t EmptyString then true else String.eqb (Doc.type n) t
     | None => true
     end.

(** [Math.ceil(total / limit)] *)
Definition ceil_div (total limit : Z) : Z := (- ((- total) / limit))%Z.

Record Page := {
  notifications : list Doc.t;
  total : Z;
  page : Z;
  limit : Z;
  pages : Z
}.

(** [sort({ createdAt: -1 }).skip(skip).limit(limit)].  The store rejects a
    negative [skip]; a negative [limit] returns as many documents as its
    absolute value. *)
Definition getUserNotifications (userId : ObjectId) (filters : Filters.t)
           (pagination : Pagination.t) (l : Collection) : Result Page :=
  let page := or_default (Pagination.page pagination) 1 in
  let limit := or_default (Pagination.limit pagination) 10 in
  let skip := ((page - 1) * limit)%Z in
  let found := filter (matches_filters userId filters) l in
  if Z.ltb skip 0 then Throw "Skip value must be non-negative"
  else
    Return
      {| notifications :=
           firstn (Z.to_nat (Z.abs limit))
                  (skipn (Z.to_nat skip)
                         (sort_by (fun n => (- Doc.createdAt n)%Z) found));
         total := Z.of_nat (List.length found);
         page := page;
         limit := limit;
         pages := ceil_div (Z.of_nat (List.length found)) limit |}.

End NotificationService.

(** ** The knowledge base service *)

Module KnowledgeService.
Import SchedulingService.

(** [\w]: a letter A to Z or a to z, a digit or the underscore. *)
Definition is_word (c : ascii) : bool :=
  let n := nat_of_ascii c in
  (Nat.leb 48 n && Nat.leb n 57)
  || (Nat.leb 65 n && Nat.leb n 90)
  || (Nat.leb 97 n && Nat.leb n 122)
  || Nat.eqb n 95.

Definition is_space (c : ascii) : bool := Nat.eqb (nat_of_ascii c) 32.

(** [replace(/[^\w ]+/g, '')] *)
Fixpoint strip_non_word (s : string) : string :=
  match s with
  | EmptyString => EmptyString
  | String c s' =>
    if is_word c || is_space c then String c (strip_non_word s')
    else strip_non_word s'
  end.

(** [replace(/ +/g, '-')]: every run of spaces becomes one dash;
    [in_run] tells that the character before was a space. *)
Fixpoint dash_spaces (in_run : bool) (s : string) : string :=
  match s with
  | EmptyString => EmptyString
  | String c s' =>
    if is_space c then
      if in_run then dash_spaces true s'
      else String "-" (dash_spaces true s')
    else String c (dash_spaces false s')
  end.

(** The slug that [createArticle], [updateArticle], [createCategory] and
    [updateCategory] make of a title or a name of ASCII characters. *)
Definition slugify (title : string) : string :=
  dash_spaces false (strip_non_word (SupportRequestService.toLowerCase title)).

(** A character of a slug: a lowercase letter, a digit, the underscore or
    the dash. *)
Definition is_slug_char (c : ascii) : bool :=
  let n := nat_of_ascii c in
  (Nat.leb 48 n && Nat.leb n 57)
  || (Nat.leb 97 n && Nat.leb n 122)
  || Nat.eqb n 95
  || Nat.eqb n 45.

(** The paths of a category and of an article that [deleteCategory]
    reads. *)
Record Category := { category_id : ObjectId; name : string }.
Record Article := { article_id : ObjectId; title : string; category : ObjectId }.

Record Base := { categories : list Category; articles : list Article }.

Fixpoint remove_category (id : ObjectId) (l : list Category) : list Category :=
  match l with
  | [] => []
  | c :: l' =>
    if Nat.eqb (category_id c) id then l' else c :: remove_category id l'
  end.

Definition deleteCategory (categoryId : ObjectId) (b : Base)
  : Base * Result bool :=
  let articlesCount :=
    List.length (filter (fun a => Nat.eqb (category a) categoryId) (articles b)) in
  if Nat.ltb 0 articlesCount then
    (b, Throw "Cannot delete category with associated articles")
  else
    match find (fun c => Nat.eqb (category_id c) categoryId) (categories b) with
    | None => (b, Throw "Category not found")
    | Some _ =>
      ({| categories := remove_category categoryId (categories b);
          articles := articles b |}, Return true)
    end.

(** Every article belongs to a stored category. *)
Definition no_orphans (b : Base) : Prop :=
  forall a, In a (articles b) ->
            exists c, In c (categories b) /\ category_id c = category a.

End KnowledgeService.

(** ** Properties of the controller *)

Section ControllerFacts.
Import SchedulingController.

Lemma ScheduleStatus_beq_eq (a b : ScheduleStatus) :
    ScheduleStatus_beq a b = true <-> a = b.
Proof. destruct a, b; simpl; split; intro H; congruence. Qed.

Lemma UserType_beq_eq (a b : UserType) : UserType_beq a b = true <-> a = b.
Proof. destruct a, b; simpl; split; intro H; congruence. Qed.

Lemma nin_terminal_true (st : ScheduleStatus) :
    nin_terminal st = true <-> st <> completed /\ st <> cancelled.
Proof.
    destruct st; simpl; split; intro H; try reflexivity; try discriminate;
      try (split; discriminate); destruct H as [H1 H2]; congruence.
Qed.

Lemma window_overlaps_true (s e : Date) (c : Schedule.t) :
    window_overlaps s e c = true <->
    (Schedule.scheduledStart c < e /\ Schedule.scheduledEnd c > s)%Z.
Proof.
    unfold window_overlaps. rewrite andb_true_iff, Z.ltb_lt, Z.gtb_gt. tauto.
Qed.

  (** The conflict query, read as a set. *)
Lemma In_findConflicts tech s e exclude db (c : Schedule.t) :
    In c (findConflicts tech s e exclude db) <->
    In c (schedules db)
    /\ Schedule.technician c = tech
    /\ (Schedule.scheduledStart c < e /\ Schedule.scheduledEnd c > s)%Z
    /\ (Schedule.status c <> completed /\ Schedule.status c <> cancelled)
    /\ (forall id, exclude = Some id -> Schedule._id c <> id).
Proof.
    unfold findConflicts. rewrite filter_In, !andb_true_iff.
    rewrite Nat.eqb_eq, window_overlaps_true, nin_terminal_true.
    assert (Hex : match exclude with
                  | Some id => negb (Nat.eqb (Schedule._id c) id)
                  | None => true
                  end = true <->
                  forall id, exclude = Some id -> Schedule._id c <> id).
    { destruct exclude as [i|].
      - rewrite negb_true_iff, Nat.eqb_neq. split.
        + intros H id [= <-]. exact H.
        + intros H. apply H. reflexivity.
      - split; [intros _ id; discriminate | reflexivity]. }
    rewrite Hex. tauto.
Qed.

Lemma length_pos_false {A : Type} (l : list A) :
    Nat.ltb 0 (List.length l) = false <-> l = [].
Proof.
    destruct l; simpl; split; intro H; try reflexivity; try discriminate.
Qed.

Lemma length_pos_true {A : Type} (l : list A) :
    Nat.ltb 0 (List.length l) = true <-> l <> [].
Proof.
    destruct l; simpl; split; intro H; try reflexivity; try discriminate;
      congruence.
Qed.

End ControllerFacts.

Section CreateSchedule.
Import SchedulingController.

(** What [createSchedule] computes for an admin whose request names a
    technician user and an existing support request. *)
Lemma createSchedule_valid user body db tid s e tech sr :
  userType user = admin ->
  Body.technicianId body = Some tid ->
  Body.scheduledStart body = Some s ->
  Body.scheduledEnd body = Some e ->
  User_findById (Some tid) db = Some tech ->
  User.userType tech = technician ->
  SupportRequest_findById (Body.supportRequestId body) db = Some sr ->
  createSchedule user body db =
  if Nat.ltb 0 (List.length (findConflicts tid s e None db))
  then (db, respond 400 (Conflicts "Scheduling conflict detected"
                                   (findConflicts tid s e None db)))
  else persist_and_respond user tid (newSchedule user body tid s e sr db) sr db.
Proof.
  intros Hadmin Htid Hs He Htech Htype Hsr.
  unfold createSchedule, validationResult.
  rewrite Hadmin, Htid, Hs, He, Htech, Htype, Hsr. reflexivity.
Qed.

Lemma persist_and_respond_code user tid sch sr db :
  code (snd (persist_and_respond user tid sch sr db)) = 201.
Proof. reflexivity. Qed.

Lemma persist_and_respond_schedules user tid sch sr db :
  schedules (fst (persist_and_respond user tid sch sr db)) = schedules db ++ [sch].
Proof.
  unfold persist_and_respond. simpl.
  destruct (String.eqb (SupportRequest.status sr) "new"); reflexivity.
Qed.

(** A create that does not answer 201 leaves the store as it was. *)
Lemma createSchedule_failure_unchanged user body db :
  code (snd (createSchedule user body db)) <> 201 ->
  fst (createSchedule user body db) = db.
Proof.
  unfold createSchedule.
  destruct (negb (UserType_beq (userType user) admin)); [reflexivity|].
  destruct (validationResult body); [|reflexivity].
  destruct (Body.technicianId body) as [tid|]; [|reflexivity].
  destruct (Body.scheduledStart body) as [s|]; [|reflexivity].
  destruct (Body.scheduledEnd body) as [e|]; [|reflexivity].
  destruct (User_findById (Some tid) db) as [tech|]; [|reflexivity].
  destruct (negb (UserType_beq (User.userType tech) technician)); [reflexivity|].
  destruct (SupportRequest_findById (Body.supportRequestId body) db) as [sr|];
    [|reflexivity].
  destruct (Nat.ltb 0 (List.length (findConflicts tid s e None db)));
    [reflexivity|].
  rewrite persist_and_respond_code. congruence.
Qed.

(** A create that answers 201 went through every check. *)
Lemma createSchedule_success_inv user body db :
  code (snd (createSchedule user body db)) = 201 ->
  exists tid s e tech sr,
    userType user = admin
    /\ Body.technicianId body = Some tid
    /\ Body.scheduledStart body = Some s
    /\ Body.scheduledEnd body = Some e
    /\ User_findById (Some tid) db = Some tech
    /\ User.userType tech = technician
    /\ SupportRequest_findById (Body.supportRequestId body) db = Some sr
    /\ findConflicts tid s e None db = []
    /\ createSchedule user body db =
       persist_and_respond user tid (newSchedule user body tid s e sr db) sr db.
Proof.
  unfold createSchedule.
  destruct (UserType_beq (userType user) admin) eqn:Hadmin; cbn [negb];
    [|simpl; discriminate].
  destruct (validationResult body); [|simpl; discriminate].
  destruct (Body.technicianId body) as [tid|]; [|simpl; discriminate].
  destruct (Body.scheduledStart body) as [s|]; [|simpl; discriminate].
  destruct (Body.scheduledEnd body) as [e|]; [|simpl; discriminate].
  destruct (User_findById (Some tid) db) as [tech|] eqn:Htech;
    [|simpl; discriminate].
  destruct (UserType_beq (User.userType tech) technician) eqn:Htype; cbn [negb];
    [|simpl; discriminate].
  destruct (SupportRequest_findById (Body.supportRequestId body) db) as [sr|];
    [|simpl; discriminate].
  destruct (Nat.ltb 0 (List.length (findConflicts tid s e None db))) eqn:Hc;
    [simpl; discriminate|].
  intros _. exists tid, s, e, tech, sr.
  apply UserType_beq_eq in Hadmin. apply UserType_beq_eq in Htype.
  apply length_pos_false in Hc. repeat split; auto.
Qed.

End CreateSchedule.

Section UpdateSchedule.
Import SchedulingController Booking.

(** The test after [schedule.save()] compares the body's status with the
    status just assigned from it, so the branch that resolves the support
    request is never taken. *)
Lemma save_and_respond_eq user body sch db :
  Schedule.status sch = or_else (Body.status body) (Schedule.status sch) ->
  save_and_respond user body sch db =
  (Schedule_save sch db, respond 200 (Updated "Schedule updated successfully" sch)).
Proof.
  intros Hst. unfold save_and_respond.
  destruct (Body.status body) as [st|]; simpl in *; [|reflexivity].
  rewrite Hst.
  destruct (ScheduleStatus_beq st completed) eqn:E; reflexivity.
Qed.

Lemma patched_status user body sch :
  Schedule.status (patched user body sch) =
  or_else (Body.status body) (Schedule.status (patched user body sch)).
Proof.
  unfold patched.
  destruct (UserType_beq (userType user) technician), (Body.status body);
    reflexivity.
Qed.

Lemma patched_status_old user body sch :
  Schedule.status (patched user body sch) =
  or_else (Body.status body) (Schedule.status sch).
Proof.
  unfold patched.
  destruct (UserType_beq (userType user) technician); reflexivity.
Qed.

(** [updateSchedule] in one equation. *)
Lemma updateSchedule_eq user id body db :
  updateSchedule user id body db =
  if negb (UserType_beq (userType user) admin)
     && negb (UserType_beq (userType user) technician)
  then (db, respond 403 (Message "Access denied"))
  else
    match Schedule_findById id db with
    | None => (db, respond 404 (Message "Schedule not found"))
    | Some sch =>
      if UserType_beq (userType user) technician
         && negb (Nat.eqb (Schedule.technician sch) (userId user))
      then (db, respond 403 (Message "You can only update your own schedules"))
      else if runs_conflict_check user body
              && Nat.ltb 0 (List.length
                              (findConflicts
                                 (Schedule.technician sch)
                                 (or_else (Body.scheduledStart body)
                                          (Schedule.scheduledStart sch))
                                 (or_else (Body.scheduledEnd body)
                                          (Schedule.scheduledEnd sch))
                                 (Some id) db))
      then (db, respond 400
                        (Conflicts "Scheduling conflict detected"
                           (findConflicts
                              (Schedule.technician sch)
                              (or_else (Body.scheduledStart body)
                                       (Schedule.scheduledStart sch))
                              (or_else (Body.scheduledEnd body)
                                       (Schedule.scheduledEnd sch))
                              (Some id) db)))
      else (Schedule_save (patched user body sch) db,
            respond 200 (Updated "Schedule updated successfully"
                                 (patched user body sch)))
    end.
Proof.
  unfold updateSchedule, runs_conflict_check.
  destruct (userType user) eqn:Hu; cbn [UserType_beq negb andb]; try reflexivity;
    destruct (Schedule_findById id db) as [sch|]; try reflexivity.
  - (* admin *)
    pose proof (patched_status user body sch) as Hp.
    unfold patched in *. rewrite Hu in *. cbn [UserType_beq] in *.
    destruct (truthy (Body.scheduledStart body) || truthy (Body.scheduledEnd body))
      eqn:Hd; cbn [andb].
    + assert (Hw :
        forall x y,
          or_else (Body.scheduledStart body)
                  (Schedule.scheduledStart
                     (set_status_notes x y
                        (set_window
                           (or_else (Body.scheduledStart body)
                                    (Schedule.scheduledStart sch))
                           (or_else (Body.scheduledEnd body)
                                    (Schedule.scheduledEnd sch)) sch))) =
          or_else (Body.scheduledStart body) (Schedule.scheduledStart sch)
          /\ or_else (Body.scheduledEnd body)
                  (Schedule.scheduledEnd
                     (set_status_notes x y
                        (set_window
                           (or_else (Body.scheduledStart body)
                                    (Schedule.scheduledStart sch))
                           (or_else (Body.scheduledEnd body)
                                    (Schedule.scheduledEnd sch)) sch))) =
          or_else (Body.scheduledEnd body) (Schedule.scheduledEnd sch)).
      { intros x y. destruct (Body.scheduledStart body), (Body.scheduledEnd body);
          split; reflexivity. }
      destruct (Hw (or_else (Body.status body) (Schedule.status sch))
                   (or_notes (Body.notes body) (Schedule.notes sch))) as [-> ->].
      cbn [Schedule.technician set_status_notes set_window].
      destruct (Nat.ltb 0 _); [reflexivity|].
      apply save_and_respond_eq. exact Hp.
    + apply save_and_respond_eq. exact Hp.
  - (* technician *)
    pose proof (patched_status user body sch) as Hp.
    unfold patched in *. rewrite Hu in *. cbn [UserType_beq] in *.
    destruct (negb (Nat.eqb (Schedule.technician sch) (userId user)));
      [reflexivity|].
    apply save_and_respond_eq. exact Hp.
Qed.

End UpdateSchedule.

Section SaveFacts.
Import SchedulingController Booking.

Lemma Schedule_findById_id id db sch :
  Schedule_findById id db = Some sch ->
  In sch (schedules db) /\ Schedule._id sch = id.
Proof.
  unfold Schedule_findById. intros H. apply find_some in H.
  rewrite Nat.eqb_eq in H. exact H.
Qed.

(** After [save], [findById] returns the saved document. *)
Lemma findById_save_same s db sch :
  Schedule_findById (Schedule._id s) db = Some sch ->
  Schedule_findById (Schedule._id s) (Schedule_save s db) = Some s.
Proof.
  unfold Schedule_findById, Schedule_save. simpl.
  induction (schedules db) as [|d l IH]; simpl; [discriminate|].
  destruct (Nat.eqb (Schedule._id d) (Schedule._id s)) eqn:E.
  - intros _. rewrite Nat.eqb_refl. reflexivity.
  - rewrite E. exact IH.
Qed.

(** [save] leaves the documents of other ids alone. *)
Lemma findById_save_other s db j :
  j <> Schedule._id s ->
  Schedule_findById j (Schedule_save s db) = Schedule_findById j db.
Proof.
  intros Hj. unfold Schedule_findById, Schedule_save. simpl.
  induction (schedules db) as [|d l IH]; simpl; [reflexivity|].
  destruct (Nat.eqb (Schedule._id d) (Schedule._id s)) eqn:E.
  - apply Nat.eqb_eq in E.
    assert (H1 : Nat.eqb (Schedule._id s) j = false)
      by (apply Nat.eqb_neq; congruence).
    assert (H2 : Nat.eqb (Schedule._id d) j = false)
      by (apply Nat.eqb_neq; congruence).
    rewrite H1, H2. exact IH.
  - destruct (Nat.eqb (Schedule._id d) j); [reflexivity | exact IH].
Qed.

Lemma In_Schedule_save s db a :
  In a (schedules (Schedule_save s db)) ->
  (a = s /\ exists d, In d (schedules db) /\ Schedule._id d = Schedule._id s)
  \/ (In a (schedules db) /\ Schedule._id a <> Schedule._id s).
Proof.
  unfold Schedule_save. simpl. rewrite in_map_iff.
  intros [d [Hd Hin]].
  destruct (Nat.eqb (Schedule._id d) (Schedule._id s)) eqn:E.
  - left. split; [congruence|]. exists d. apply Nat.eqb_eq in E. auto.
  - right. apply Nat.eqb_neq in E. subst a. auto.
Qed.

Lemma ids_Schedule_save s db :
  map Schedule._id (schedules (Schedule_save s db)) =
  map Schedule._id (schedules db).
Proof.
  unfold Schedule_save. simpl. rewrite map_map. apply map_ext_in.
  intros d _. destruct (Nat.eqb (Schedule._id d) (Schedule._id s)) eqn:E;
    [apply Nat.eqb_eq in E; congruence | reflexivity].
Qed.

(** The paths [updateSchedule] never assigns. *)
Lemma patched_frame user body sch :
  Schedule._id (patched user body sch) = Schedule._id sch
  /\ Schedule.technician (patched user body sch) = Schedule.technician sch
  /\ Schedule.supportRequest (patched user body sch) = Schedule.supportRequest sch
  /\ Schedule.priority (patched user body sch) = Schedule.priority sch
  /\ Schedule.location (patched user body sch) = Schedule.location sch
  /\ Schedule.createdBy (patched user body sch) = Schedule.createdBy sch.
Proof.
  unfold patched. destruct (UserType_beq (userType user) technician);
    repeat split; reflexivity.
Qed.

(** The store after [updateSchedule]: the store before, or the store with
    the patched document saved. *)
Lemma updateSchedule_store user id body db :
  fst (updateSchedule user id body db) = db
  \/ exists sch,
      Schedule_findById id db = Some sch
      /\ code (snd (updateSchedule user id body db)) = 200
      /\ fst (updateSchedule user id body db) =
         Schedule_save (patched user body sch) db.
Proof.
  rewrite updateSchedule_eq.
  destruct (_ && _); [left; reflexivity|].
  destruct (Schedule_findById id db) as [sch|]; [|left; reflexivity].
  destruct (_ && _); [left; reflexivity|].
  destruct (_ && _); [left; reflexivity|].
  right. exists sch. auto.
Qed.

(** What a successful update went through. *)
Lemma updateSchedule_success_inv user id body db :
  code (snd (updateSchedule user id body db)) = 200 ->
  exists sch,
    Schedule_findById id db = Some sch
    /\ fst (updateSchedule user id body db) =
       Schedule_save (patched user body sch) db
    /\ (runs_conflict_check user body = true ->
        findConflicts (Schedule.technician sch)
                      (or_else (Body.scheduledStart body) (Schedule.scheduledStart sch))
                      (or_else (Body.scheduledEnd body) (Schedule.scheduledEnd sch))
                      (Some id) db = [])
    /\ (runs_conflict_check user body = false ->
        Schedule.scheduledStart (patched user body sch) = Schedule.scheduledStart sch
        /\ Schedule.scheduledEnd (patched user body sch) = Schedule.scheduledEnd sch).
Proof.
  rewrite updateSchedule_eq. unfold runs_conflict_check, patched.
  destruct (userType user); cbn [UserType_beq negb andb];
    try (simpl; discriminate);
    (destruct (Schedule_findById id db) as [sch|]; [|simpl; discriminate]).
  - (* admin *)
    destruct (truthy (Body.scheduledStart body) || truthy (Body.scheduledEnd body))
      eqn:Hd.
    + destruct (Nat.ltb 0 _) eqn:Hl; [simpl; discriminate|].
      intros _. exists sch. apply length_pos_false in Hl.
      repeat split; auto; discriminate.
    + intros _. exists sch. apply orb_false_iff in Hd. destruct Hd as [Hs He].
      destruct (Body.scheduledStart body); [discriminate|].
      destruct (Body.scheduledEnd body); [discriminate|].
      repeat split; auto; discriminate.
  - (* technician *)
    destruct (negb _); [simpl; discriminate|].
    intros _. exists sch. repeat split; auto; discriminate.
Qed.

End SaveFacts.

Section ControllerClaims.
Import SchedulingController Booking Examples.

(** C5.  For an admin request that names a technician user and an existing
    support request, [createSchedule] succeeds (201, the schedule is
    persisted) if and only if the conflict query for that technician and
    window is empty; [updateSchedule] by an admin who sends [scheduledStart]
    or [scheduledEnd] succeeds (200, the patched schedule is saved) if and
    only if the conflict query for the schedule's technician and the new
    window, without the schedule's own id, is empty.  When the query is not
    empty the answer is 400, its payload carries the conflicting schedules,
    and the store is unchanged. *)
Theorem write_succeeds_iff_no_conflict :
  (forall user body db tid s e tech sr,
      userType user = admin ->
      Body.technicianId body = Some tid ->
      Body.scheduledStart body = Some s ->
      Body.scheduledEnd body = Some e ->
      User_findById (Some tid) db = Some tech ->
      User.userType tech = technician ->
      SupportRequest_findById (Body.supportRequestId body) db = Some sr ->
      (code (snd (createSchedule user body db)) = 201
       <-> findConflicts tid s e None db = [])
      /\ (findConflicts tid s e None db = [] ->
          schedules (fst (createSchedule user body db)) =
          schedules db ++ [newSchedule user body tid s e sr db])
      /\ (findConflicts tid s e None db <> [] ->
          createSchedule user body db =
          (db, respond 400 (Conflicts "Scheduling conflict detected"
                                      (findConflicts tid s e None db)))))
  /\
  (forall user id body db sch,
      userType user = admin ->
      Schedule_findById id db = Some sch ->
      truthy (Body.scheduledStart body) || truthy (Body.scheduledEnd body) = true ->
      (code (snd (updateSchedule user id body db)) = 200
       <-> findConflicts
             (Schedule.technician sch)
             (or_else (Body.scheduledStart body) (Schedule.scheduledStart sch))
             (or_else (Body.scheduledEnd body) (Schedule.scheduledEnd sch))
             (Some id) db = [])
      /\ (findConflicts
            (Schedule.technician sch)
            (or_else (Body.scheduledStart body) (Schedule.scheduledStart sch))
            (or_else (Body.scheduledEnd body) (Schedule.scheduledEnd sch))
            (Some id) db = [] ->
          fst (updateSchedule user id body db) =
          Schedule_save (patched user body sch) db)
      /\ (findConflicts
            (Schedule.technician sch)
            (or_else (Body.scheduledStart body) (Schedule.scheduledStart sch))
            (or_else (Body.scheduledEnd body) (Schedule.scheduledEnd sch))
            (Some id) db <> [] ->
          updateSchedule user id body db =
          (db, respond 400
                       (Conflicts "Scheduling conflict detected"
                          (findConflicts
                             (Schedule.technician sch)
                             (or_else (Body.scheduledStart body)
                                      (Schedule.scheduledStart sch))
                             (or_else (Body.scheduledEnd body)
                                      (Schedule.scheduledEnd sch))
                             (Some id) db))))).
Proof.
  split.
  - intros user body db tid s e tech sr Hadmin Htid Hs He Htech Htype Hsr.
    rewrite (createSchedule_valid user body db tid s e tech sr) by assumption.
    destruct (Nat.ltb 0 (List.length (findConflicts tid s e None db))) eqn:Hl.
    + apply length_pos_true in Hl. repeat split.
      * simpl. discriminate.
      * intros H. contradiction.
      * intros H. contradiction.
    + apply length_pos_false in Hl. repeat split.
      * intros _. exact Hl.
      * intros _. apply persist_and_respond_schedules.
      * intros H. contradiction.
  - intros user id body db sch Hadmin Hfind Hdates.
    rewrite updateSchedule_eq. unfold runs_conflict_check.
    rewrite Hadmin, Hfind, Hdates. cbn [UserType_beq negb andb].
    destruct (Nat.ltb 0 _) eqn:Hl.
    + apply length_pos_true in Hl. repeat split.
      * simpl. discriminate.
      * intros H. contradiction.
      * intros H. contradiction.
    + apply length_pos_false in Hl. repeat split.
      * intros _. exact Hl.
      * intros H. contradiction.
Qed.

Lemma write_succeeds_iff_no_conflict_witness :
  (code (snd (createSchedule adminUser (createBody (Some 10) 11 12)
                             (store [visit 1 9 11 scheduled]))) = 201
   <-> findConflicts 2 11 12 None (store [visit 1 9 11 scheduled]) = [])
  /\ updateSchedule adminUser 2 (fullBody 10 12)
                    (store [visit 1 9 11 scheduled; visit 2 13 14 scheduled]) =
     (store [visit 1 9 11 scheduled; visit 2 13 14 scheduled],
      respond 400 (Conflicts "Scheduling conflict detected"
                             [visit 1 9 11 scheduled])).
Proof.
  destruct write_succeeds_iff_no_conflict as [Hcreate Hupdate].
  split.
  - apply (Hcreate adminUser (createBody (Some 10) 11 12)
                   (store [visit 1 9 11 scheduled]) 2 11%Z 12%Z
                   {| User._id := 2; User.userType := technician |}
                   (request "assigned" high)); reflexivity.
  - apply (Hupdate adminUser 2 (fullBody 10 12)
                   (store [visit 1 9 11 scheduled; visit 2 13 14 scheduled])
                   (visit 2 13 14 scheduled)); try reflexivity.
    vm_compute. discriminate.
Defined.

(** C8.  An update by a technician actor leaves [scheduledStart],
    [scheduledEnd], [technician], [priority], [location] and [createdBy]
    (and the link to the support request) of the schedule as they were,
    whatever the body holds: only [status] and [notes] are assigned, and on
    their own schedule they are assigned, with answer 200.  An update by
    an admin is answered 200 whenever the conflict query, which runs when
    the body holds [scheduledStart] or [scheduledEnd], is empty; an update
    by an admin that is answered 200 assigns [scheduledStart],
    [scheduledEnd], [status] and [notes] from the keys the body holds. *)
Theorem update_assigns_by_role user id body db sch :
  Schedule_findById id db = Some sch ->
  exists sch',
    Schedule_findById id (fst (updateSchedule user id body db)) = Some sch'
    /\ Schedule.technician sch' = Schedule.technician sch
    /\ Schedule.priority sch' = Schedule.priority sch
    /\ Schedule.location sch' = Schedule.location sch
    /\ Schedule.createdBy sch' = Schedule.createdBy sch
    /\ Schedule.supportRequest sch' = Schedule.supportRequest sch
    /\ (userType user = technician ->
        Schedule.scheduledStart sch' = Schedule.scheduledStart sch
        /\ Schedule.scheduledEnd sch' = Schedule.scheduledEnd sch
        /\ (Schedule.technician sch = userId user ->
            code (snd (updateSchedule user id body db)) = 200
            /\ Schedule.status sch' =
               or_else (Body.status body) (Schedule.status sch)
            /\ Schedule.notes sch' =
               or_notes (Body.notes body) (Schedule.notes sch)))
    /\ (userType user = admin ->
        ((truthy (Body.scheduledStart body) || truthy (Body.scheduledEnd body)
          = true ->
          findConflicts (Schedule.technician sch)
                        (or_else (Body.scheduledStart body)
                                 (Schedule.scheduledStart sch))
                        (or_else (Body.scheduledEnd body)
                                 (Schedule.scheduledEnd sch))
                        (Some id) db = []) ->
         code (snd (updateSchedule user id body db)) = 200)
        /\ (code (snd (updateSchedule user id body db)) = 200 ->
            Schedule.scheduledStart sch' =
            or_else (Body.scheduledStart body) (Schedule.scheduledStart sch)
            /\ Schedule.scheduledEnd sch' =
               or_else (Body.scheduledEnd body) (Schedule.scheduledEnd sch)
            /\ Schedule.status sch' =
               or_else (Body.status body) (Schedule.status sch)
            /\ Schedule.notes sch' =
               or_notes (Body.notes body) (Schedule.notes sch))).
Proof.
  intros Hfind.
  destruct (Schedule_findById_id _ _ _ Hfind) as [_ Hid].
  rewrite updateSchedule_eq, Hfind.
  destruct (negb (UserType_beq (userType user) admin)
            && negb (UserType_beq (userType user) technician)) eqn:H1.
  { exists sch. cbn [fst snd code respond].
    split; [exact Hfind|]. repeat (split; [reflexivity|]). split.
    - intros Ht. rewrite Ht in H1. discriminate.
    - intros Ha. rewrite Ha in H1. discriminate. }
  destruct (UserType_beq (userType user) technician
            && negb (Nat.eqb (Schedule.technician sch) (userId user))) eqn:H2.
  { exists sch. cbn [fst snd code respond].
    split; [exact Hfind|]. repeat (split; [reflexivity|]). split.
    - intros Ht. repeat (split; [reflexivity|]). intros Hown.
      rewrite Ht, Hown, Nat.eqb_refl in H2. discriminate.
    - intros Ha. rewrite Ha in H2. discriminate. }
  destruct (runs_conflict_check user body && _) eqn:H3.
  { exists sch. cbn [fst snd code respond].
    split; [exact Hfind|]. repeat (split; [reflexivity|]). split.
    - intros Ht. unfold runs_conflict_check in H3. rewrite Ht in H3.
      discriminate.
    - intros Ha. apply andb_true_iff in H3. destruct H3 as [Hrun Hlen].
      unfold runs_conflict_check in Hrun. rewrite Ha in Hrun.
      cbn [UserType_beq andb] in Hrun. split.
      + intros Hnone. rewrite (Hnone Hrun) in Hlen. discriminate.
      + intros Hc. discriminate. }
  exists (patched user body sch). cbn [fst snd code respond].
  destruct (patched_frame user body sch) as (Pid & Ptech & Preq & Pprio & Ploc & Pby).
  split.
  { pose proof (findById_save_same (patched user body sch) db sch) as Hs.
    rewrite Pid, Hid in Hs. exact (Hs Hfind). }
  repeat (split; [assumption|]). split.
  - intros Ht. unfold patched. rewrite Ht. cbn. auto.
  - intros Ha. split; [reflexivity|]. intros _.
    unfold patched. rewrite Ha. cbn. auto.
Qed.

Lemma update_assigns_by_role_witness :
  (exists sch',
      Schedule_findById
        1 (fst (updateSchedule techUser 1 (fullBody 10 12)
                               (store [visit 1 9 11 scheduled]))) = Some sch'
      /\ Schedule.scheduledStart sch' = 9%Z
      /\ Schedule.scheduledEnd sch' = 11%Z
      /\ Schedule.technician sch' = 2
      /\ Schedule.status sch' = in_progress
      /\ Schedule.notes sch' = Some "on site"%string)
  /\ (exists sch',
         Schedule_findById
           1 (fst (updateSchedule adminUser 1 (fullBody 13 15)
                                  (store [visit 1 9 11 scheduled]))) = Some sch'
         /\ code (snd (updateSchedule adminUser 1 (fullBody 13 15)
                                      (store [visit 1 9 11 scheduled]))) = 200
         /\ Schedule.scheduledStart sch' = 13%Z
         /\ Schedule.scheduledEnd sch' = 15%Z
         /\ Schedule.technician sch' = 2
         /\ Schedule.status sch' = in_progress
         /\ Schedule.notes sch' = Some "on site"%string).
Proof.
  split.
  - destruct (update_assigns_by_role
                techUser 1 (fullBody 10 12) (store [visit 1 9 11 scheduled])
                (visit 1 9 11 scheduled) eq_refl)
      as (sch' & Hfind & Htech & _ & _ & _ & _ & Hrole & _).
    destruct (Hrole eq_refl) as (Hs & He & Hown).
    destruct (Hown eq_refl) as (_ & Hst & Hn).
    exists sch'. repeat split; assumption.
  - destruct (update_assigns_by_role
                adminUser 1 (fullBody 13 15) (store [visit 1 9 11 scheduled])
                (visit 1 9 11 scheduled) eq_refl)
      as (sch' & Hfind & Htech & _ & _ & _ & _ & _ & Hrole).
    destruct (Hrole eq_refl) as (Hcode & Hfields).
    pose proof (Hcode (fun _ => eq_refl)) as H200.
    destruct (Hfields H200) as (Hs & He & Hst & Hn).
    exists sch'. repeat split; assumption.
Defined.

(** C10.  Whatever the actor and the body, every schedule has the same
    [technician] after [updateSchedule] as before it. *)
Theorem update_keeps_technician user id body db j :
  option_map Schedule.technician
             (Schedule_findById j (fst (updateSchedule user id body db))) =
  option_map Schedule.technician (Schedule_findById j db).
Proof.
  destruct (updateSchedule_store user id body db)
    as [Hsame | (sch & Hfind & _ & Hdb)].
  - rewrite Hsame. reflexivity.
  - rewrite Hdb.
    destruct (Schedule_findById_id _ _ _ Hfind) as [_ Hid].
    destruct (patched_frame user body sch) as (Pid & Ptech & _).
    destruct (Nat.eq_dec j id) as [->|Hne].
    + pose proof (findById_save_same (patched user body sch) db sch) as Hs.
      rewrite Pid, Hid in Hs. rewrite (Hs Hfind), Hfind. simpl.
      rewrite Ptech. reflexivity.
    + rewrite findById_save_other; [reflexivity|]. rewrite Pid, Hid. exact Hne.
Qed.

(** [updateSchedule] never writes to the support request collection. *)
Lemma updateSchedule_requests_unchanged user id body db :
  supportRequests (fst (updateSchedule user id body db)) = supportRequests db.
Proof.
  destruct (updateSchedule_store user id body db)
    as [Hsame | (sch & _ & _ & Hdb)].
  - rewrite Hsame. reflexivity.
  - rewrite Hdb. reflexivity.
Qed.

(** C2.  Setting a schedule's status to [completed] does not resolve the
    linked support request: at the schedule 1 of request 10 (status
    "assigned") the update answers 200, stores the status [completed], and
    the request keeps its status and its empty history. *)
Theorem completed_update_keeps_request :
  code (snd (updateSchedule adminUser 1 (statusBody completed)
                            (store [visit 1 9 11 scheduled]))) = 200
  /\ schedules (fst (updateSchedule adminUser 1 (statusBody completed)
                                    (store [visit 1 9 11 scheduled]))) =
     [visit 1 9 11 completed]
  /\ supportRequests (fst (updateSchedule adminUser 1 (statusBody completed)
                                          (store [visit 1 9 11 scheduled]))) =
     [request "assigned" high].
Proof. repeat split. Qed.

(** C3, as stated, fails: an admin's create for the window from 12 to 9 is
    answered 201 and the schedule is persisted. *)
Lemma inverted_window_is_accepted :
  Body.scheduledStart (createBody (Some 10) 12 9) = Some 12%Z
  /\ Body.scheduledEnd (createBody (Some 10) 12 9) = Some 9%Z
  /\ (12 >= 9)%Z
  /\ code (snd (createSchedule adminUser (createBody (Some 10) 12 9) (store []))) = 201
  /\ map (fun a => (Schedule.scheduledStart a, Schedule.scheduledEnd a))
         (schedules (fst (createSchedule adminUser (createBody (Some 10) 12 9)
                                         (store [])))) = [(12%Z, 9%Z)].
Proof. repeat split. lia. Qed.

(** C3, amended.  [createSchedule] does not compare [scheduledStart] with
    [scheduledEnd]: a request whose start is not before its end, from an
    admin, with a technician user, an existing support request and an empty
    conflict query, is answered 201 and persisted with that window.  Every
    create that is not answered 201 persists nothing. *)
Theorem create_ignores_window_order :
  (forall user body db tid s e tech sr,
      userType user = admin ->
      Body.technicianId body = Some tid ->
      Body.scheduledStart body = Some s ->
      Body.scheduledEnd body = Some e ->
      User_findById (Some tid) db = Some tech ->
      User.userType tech = technician ->
      SupportRequest_findById (Body.supportRequestId body) db = Some sr ->
      (s >= e)%Z ->
      findConflicts tid s e None db = [] ->
      code (snd (createSchedule user body db)) = 201
      /\ schedules (fst (createSchedule user body db)) =
         schedules db ++ [newSchedule user body tid s e sr db]
      /\ Schedule.scheduledStart (newSchedule user body tid s e sr db) = s
      /\ Schedule.scheduledEnd (newSchedule user body tid s e sr db) = e)
  /\ (forall user body db,
         code (snd (createSchedule user body db)) <> 201 ->
         fst (createSchedule user body db) = db).
Proof.
  split.
  - intros user body db tid s e tech sr Hadmin Htid Hs He Htech Htype Hsr _ Hc.
    rewrite (createSchedule_valid user body db tid s e tech sr) by assumption.
    rewrite Hc. cbn [List.length Nat.ltb Nat.leb].
    repeat split. apply persist_and_respond_schedules.
  - apply createSchedule_failure_unchanged.
Qed.

Lemma create_ignores_window_order_witness :
  code (snd (createSchedule adminUser (createBody (Some 10) 12 9)
                            (store [visit 1 9 11 cancelled]))) = 201
  /\ fst (createSchedule adminUser (createBody None 12 9) (store [])) = store [].
Proof.
  destruct create_ignores_window_order as [Hok Hfail].
  split.
  - apply (Hok adminUser (createBody (Some 10) 12 9)
               (store [visit 1 9 11 cancelled]) 2 12%Z 9%Z
               {| User._id := 2; User.userType := technician |}
               (request "assigned" high)); try reflexivity. lia.
  - apply Hfail. vm_compute. discriminate.
Defined.

(** C9, as stated, fails: a create with a technician user, a free window
    and no support request is answered 400 and nothing is persisted. *)
Lemma create_without_request_is_rejected :
  Body.supportRequestId (createBody None 9 11) = None
  /\ createSchedule adminUser (createBody None 9 11) (store []) =
     (store [], respond 400 (Message "Invalid support request")).
Proof. split; reflexivity. Qed.

(** C9, amended.  The support request of a schedule is required:
    a create from an admin for a technician user whose body names no
    support request, or one that is not in the store, is answered 400
    "Invalid support request" and persists nothing; every create answered
    201 persists a schedule linked to the existing support request that the
    body names. *)
Theorem create_requires_support_request :
  (forall user body db tid s e tech,
      userType user = admin ->
      Body.technicianId body = Some tid ->
      Body.scheduledStart body = Some s ->
      Body.scheduledEnd body = Some e ->
      User_findById (Some tid) db = Some tech ->
      User.userType tech = technician ->
      SupportRequest_findById (Body.supportRequestId body) db = None ->
      createSchedule user body db =
      (db, respond 400 (Message "Invalid support request")))
  /\ (forall user body db,
         code (snd (createSchedule user body db)) = 201 ->
         exists sr sch,
           SupportRequest_findById (Body.supportRequestId body) db = Some sr
           /\ schedules (fst (createSchedule user body db)) = schedules db ++ [sch]
           /\ Schedule.supportRequest sch = SupportRequest._id sr).
Proof.
  split.
  - intros user body db tid s e tech Hadmin Htid Hs He Htech Htype Hsr.
    unfold createSchedule, validationResult.
    rewrite Hadmin, Htid, Hs, He, Htech, Htype, Hsr. reflexivity.
  - intros user body db Hcode.
    destruct (createSchedule_success_inv user body db Hcode)
      as (tid & s & e & tech & sr & _ & _ & _ & _ & _ & _ & Hsr & _ & Heq).
    exists sr, (newSchedule user body tid s e sr db). rewrite Heq.
    repeat split; [exact Hsr | apply persist_and_respond_schedules].
Qed.

Lemma create_requires_support_request_witness :
  createSchedule adminUser (createBody None 9 11) (store []) =
  (store [], respond 400 (Message "Invalid support request"))
  /\ exists sr sch,
      SupportRequest_findById (Some 10) (store []) = Some sr
      /\ schedules (fst (createSchedule adminUser (createBody (Some 10) 9 11)
                                        (store []))) = [] ++ [sch]
      /\ Schedule.supportRequest sch = SupportRequest._id sr.
Proof.
  destruct create_requires_support_request as [Hnone Hsome].
  split.
  - apply (Hnone adminUser (createBody None 9 11) (store []) 2 9%Z 11%Z
                 {| User._id := 2; User.userType := technician |});
      reflexivity.
  - apply (Hsome adminUser (createBody (Some 10) 9 11) (store [])).
    reflexivity.
Defined.

End ControllerClaims.

Section NoDoubleBooking.
Import SchedulingController Booking Examples.

Lemma non_terminal_nin (a : Schedule.t) :
  non_terminal a <-> nin_terminal (Schedule.status a) = true.
Proof. unfold non_terminal. rewrite nin_terminal_true. tauto. Qed.

(** An empty conflict query: no other non-terminal schedule of the
    technician meets the window. *)
Lemma findConflicts_nil tech s e exclude db :
  findConflicts tech s e exclude db = [] ->
  forall c,
    In c (schedules db) ->
    Schedule.technician c = tech ->
    non_terminal c ->
    (forall id, exclude = Some id -> Schedule._id c <> id) ->
    ~ (Schedule.scheduledStart c < e /\ Schedule.scheduledEnd c > s)%Z.
Proof.
  intros Hnil c Hin Htech Hnt Hex Hov.
  assert (Hc : In c (findConflicts tech s e exclude db)).
  { apply In_findConflicts. unfold non_terminal in Hnt. tauto. }
  rewrite Hnil in Hc. exact Hc.
Qed.

Lemma fresh_id_not_in (l : list Schedule.t) :
  ~ In (fresh_id l) (map Schedule._id l).
Proof.
  unfold fresh_id. intros Hin.
  assert (H : Forall (fun k => k <= list_max (map Schedule._id l))
                     (map Schedule._id l))
    by (apply list_max_le; apply Nat.le_refl).
  rewrite Forall_forall in H. apply H in Hin. lia.
Qed.

Lemma NoDup_snoc {A : Type} (l : list A) (x : A) :
  NoDup l -> ~ In x l -> NoDup (l ++ [x]).
Proof.
  induction l as [|y l IH]; simpl; intros Hnd Hx.
  - constructor; [intros []|constructor].
  - inversion Hnd as [|? ? Hy Hl]; subst. constructor.
    + rewrite in_app_iff. simpl. intros [H|[H|[]]]; [auto|].
      apply Hx. left. symmetry. exact H.
    + apply IH; [exact Hl|]. intros H. apply Hx. right. exact H.
Qed.

(** A successful create keeps the store free of double bookings. *)
Lemma createSchedule_conflict_free user body db :
  conflict_free db ->
  code (snd (createSchedule user body db)) = 201 ->
  conflict_free (fst (createSchedule user body db)).
Proof.
  intros Hcf Hcode.
  destruct (createSchedule_success_inv user body db Hcode)
    as (tid & s & e & tech & sr & _ & _ & _ & _ & _ & _ & _ & Hnil & Heq).
  pose proof (persist_and_respond_schedules
                user tid (newSchedule user body tid s e sr db) sr db) as Hsch.
  rewrite <- Heq in Hsch.
  unfold conflict_free. rewrite Hsch.
  intros a b Ha Hb Hid Htech Hna Hnb [Hab Hba].
  rewrite in_app_iff in Ha, Hb. simpl in Ha, Hb.
  destruct Ha as [Ha|[Ha|[]]]; destruct Hb as [Hb|[Hb|[]]].
  - apply (Hcf a b); auto. split; assumption.
  - subst b. simpl in *.
    apply (findConflicts_nil _ _ _ _ _ Hnil a); auto; [discriminate | lia].
  - subst a. simpl in *.
    apply (findConflicts_nil _ _ _ _ _ Hnil b); auto; [discriminate | lia].
  - subst a b. apply Hid. reflexivity.
Qed.

(** The new document has an id of its own. *)
Lemma createSchedule_unique_ids user body db :
  unique_ids db ->
  code (snd (createSchedule user body db)) = 201 ->
  unique_ids (fst (createSchedule user body db)).
Proof.
  intros Hu Hcode.
  destruct (createSchedule_success_inv user body db Hcode)
    as (tid & s & e & tech & sr & _ & _ & _ & _ & _ & _ & _ & _ & Heq).
  pose proof (persist_and_respond_schedules
                user tid (newSchedule user body tid s e sr db) sr db) as Hsch.
  rewrite <- Heq in Hsch.
  unfold unique_ids. rewrite Hsch, map_app. simpl.
  apply NoDup_snoc; [exact Hu | apply fresh_id_not_in].
Qed.

(** A successful update keeps the store free of double bookings, unless it
    turns a terminal status into a non-terminal one without running the
    conflict query. *)
Lemma updateSchedule_conflict_free user id body db :
  conflict_free db ->
  checked_reactivation user id body db = true ->
  code (snd (updateSchedule user id body db)) = 200 ->
  conflict_free (fst (updateSchedule user id body db)).
Proof.
  intros Hcf Hadm Hcode.
  destruct (updateSchedule_success_inv user id body db Hcode)
    as (sch & Hfind & Hdb & Hchecked & Hunchecked).
  destruct (Schedule_findById_id _ _ _ Hfind) as [Hin Hid].
  destruct (patched_frame user body sch) as (Pid & Ptech & _).
  rewrite Hdb.
  (* the patched document against any other document of the store *)
  assert (Hpair : forall d,
             In d (schedules db) ->
             Schedule._id d <> Schedule._id (patched user body sch) ->
             Schedule.technician d = Schedule.technician (patched user body sch) ->
             non_terminal d -> non_terminal (patched user body sch) ->
             ~ overlap (patched user body sch) d).
  { intros d Hd Hne Htech Hnd Hnp [H1 H2].
    destruct (runs_conflict_check user body) eqn:Hrc.
    - specialize (Hchecked eq_refl).
      apply (findConflicts_nil _ _ _ _ _ Hchecked d); auto.
      + congruence.
      + intros i [= <-]. congruence.
      + unfold patched, runs_conflict_check in *.
        destruct (userType user); try discriminate. simpl in *. lia.
    - destruct (Hunchecked eq_refl) as [Hs He].
      unfold checked_reactivation, reactivates in Hadm.
      rewrite Hrc, Hfind, orb_false_r in Hadm.
      rewrite <- (patched_status_old user) in Hadm.
      apply non_terminal_nin in Hnp. rewrite Hnp, andb_true_r in Hadm.
      rewrite negb_involutive in Hadm. apply non_terminal_nin in Hadm.
      apply (Hcf sch d); auto; try congruence.
      unfold overlap. rewrite <- Hs, <- He. split; assumption. }
  intros a b Ha Hb Hne Htech Hna Hnb Hov.
  apply In_Schedule_save in Ha. apply In_Schedule_save in Hb.
  destruct Ha as [[-> _]|[Ha Hida]]; destruct Hb as [[-> _]|[Hb Hidb]].
  - apply Hne. reflexivity.
  - apply (Hpair b); auto.
  - apply (Hpair a); auto. destruct Hov. split; assumption.
  - apply (Hcf a b); auto.
Qed.

(** An update keeps the ids of the collection. *)
Lemma updateSchedule_ids user id body db :
  map Schedule._id (schedules (fst (updateSchedule user id body db))) =
  map Schedule._id (schedules db).
Proof.
  destruct (updateSchedule_store user id body db)
    as [Hsame | (sch & _ & _ & Hdb)].
  - rewrite Hsame. reflexivity.
  - rewrite Hdb. apply ids_Schedule_save.
Qed.

(** Distinct ids stay distinct along every sequence of successful calls, so
    that two documents of different ids are two different schedules. *)
Lemma reachable_unique_ids admitted db0 db :
  unique_ids db0 -> reachable admitted db0 db -> unique_ids db.
Proof.
  intros Hu Hreach.
  induction Hreach as [|db user body _ IH Hcode|db user id body _ IH _ _].
  - exact Hu.
  - apply createSchedule_unique_ids; assumption.
  - unfold unique_ids. rewrite updateSchedule_ids. exact IH.
Qed.

(** C1, as stated, fails.  In the store with the completed visit 1 of
    technician 2 from 9 to 11, the admin creates a visit from 10 to 12 for
    technician 2 (201); the technician then sets the status of visit 1 back
    to [scheduled] (200).  The store reached holds two overlapping
    non-terminal schedules of technician 2. *)
Lemma status_revert_double_books :
  unique_ids (store [visit 1 9 11 completed])
  /\ conflict_free (store [visit 1 9 11 completed])
  /\ reachable any_update (store [visit 1 9 11 completed])
       (fst (updateSchedule techUser 1 (statusBody scheduled)
               (fst (createSchedule adminUser (createBody (Some 10) 10 12)
                                    (store [visit 1 9 11 completed])))))
  /\ ~ conflict_free
       (fst (updateSchedule techUser 1 (statusBody scheduled)
               (fst (createSchedule adminUser (createBody (Some 10) 10 12)
                                    (store [visit 1 9 11 completed]))))).
Proof.
  split; [|split; [|split]].
  - unfold unique_ids. simpl. constructor; [intros []|constructor].
  - intros a b [<-|[]] [<-|[]] Hne. exfalso. apply Hne. reflexivity.
  - apply reach_update; [|reflexivity|reflexivity].
    apply reach_create; [|reflexivity]. apply reach_start.
  - intros Hcf.
    apply (Hcf (visit 1 9 11 scheduled)
               (newSchedule adminUser (createBody (Some 10) 10 12) 2 10%Z 12%Z
                            (request "assigned" high)
                            (store [visit 1 9 11 completed]))).
    + left. reflexivity.
    + right. left. reflexivity.
    + simpl. discriminate.
    + reflexivity.
    + split; discriminate.
    + split; discriminate.
    + unfold overlap. simpl. lia.
Qed.

(** C1, amended.  From a store with no double booking, every sequence of
    successful [createSchedule] and [updateSchedule] calls
    in which each update that turns a terminal status into a non-terminal
    one is an admin update sending [scheduledStart] or [scheduledEnd] (so
    that the conflict query runs) reaches a store with no double booking:
    no two schedules of one technician with non-terminal status overlap. *)
Theorem no_double_booking db0 db :
  conflict_free db0 ->
  reachable checked_reactivation db0 db ->
  conflict_free db.
Proof.
  intros Hcf Hreach.
  induction Hreach as [|db user body _ IH Hcode|db user id body _ IH Hadm Hcode].
  - exact Hcf.
  - apply createSchedule_conflict_free; assumption.
  - apply updateSchedule_conflict_free; assumption.
Qed.

Lemma no_double_booking_witness :
  conflict_free
    (fst (updateSchedule adminUser 1 (fullBody 12 13)
            (fst (createSchedule adminUser (createBody (Some 10) 10 12)
                                 (store [visit 1 9 11 completed])))))
  /\ map (fun a => (Schedule._id a, Schedule.status a,
                    Schedule.scheduledStart a, Schedule.scheduledEnd a))
         (schedules
            (fst (updateSchedule adminUser 1 (fullBody 12 13)
                    (fst (createSchedule adminUser (createBody (Some 10) 10 12)
                                         (store [visit 1 9 11 completed])))))) =
     [(1, in_progress, 12%Z, 13%Z); (2, scheduled, 10%Z, 12%Z)].
Proof.
  split; [|reflexivity].
  apply (no_double_booking (store [visit 1 9 11 completed])).
  - intros a b [<-|[]] [<-|[]] Hne. exfalso. apply Hne. reflexivity.
  - apply reach_update; [|reflexivity|reflexivity].
    apply reach_create; [|reflexivity]. apply reach_start.
Defined.

End NoDoubleBooking.

(** ** Properties of the scheduling service *)

Section ServiceClaims.
Import Examples.
Import SchedulingService.

(** A stored schedule has no date at [startTime] or [endTime]: no clause on
    these paths matches it. *)
Lemma clause_startTime op bound (c : Schedule.t) :
  clause "startTime" op bound c = false.
Proof. reflexivity. Qed.

Lemma clause_endTime op bound (c : Schedule.t) :
  clause "endTime" op bound c = false.
Proof. reflexivity. Qed.

Lemma filter_nothing {A : Type} (p : A -> bool) (l : list A) :
  (forall x, p x = false) -> filter p l = [].
Proof.
  intros Hp. induction l as [|x l IH]; [reflexivity|].
  cbn [filter]. rewrite Hp. exact IH.
Qed.

Lemma filter_everything {A : Type} (p : A -> bool) (l : list A) :
  (forall x, p x = true) -> filter p l = l.
Proof.
  intros Hp. induction l as [|x l IH]; [reflexivity|].
  cbn [filter]. rewrite Hp, IH. reflexivity.
Qed.

(** The query of [checkScheduleConflicts] matches no stored schedule. *)
Lemma checkScheduleConflicts_nil tech s e exclude st :
  checkScheduleConflicts tech s e exclude st = [].
Proof.
  unfold checkScheduleConflicts. apply filter_nothing. intros c.
  rewrite clause_startTime, andb_false_r. reflexivity.
Qed.

Lemma busyTechnicians_nil s e st : busyTechnicians s e st = [].
Proof.
  unfold busyTechnicians. rewrite filter_nothing; [reflexivity|].
  intros c. rewrite clause_startTime. reflexivity.
Qed.

Lemma getAvailableTechnicians_eq s e st :
  getAvailableTechnicians s e st =
  filter (fun u => UserType_beq (User.userType u) technician) (users st).
Proof.
  unfold getAvailableTechnicians. rewrite busyTechnicians_nil.
  apply filter_everything. reflexivity.
Qed.

(** A window that starts where a schedule ends, or ends where it starts, is
    no conflict with it in the controller's query. *)
Lemma adjacent_window_no_conflict tech s e exclude db (c : Schedule.t) :
  s = Schedule.scheduledEnd c \/ e = Schedule.scheduledStart c ->
  ~ In c (SchedulingController.findConflicts tech s e exclude db).
Proof.
  intros Hadj Hin. apply In_findConflicts in Hin. lia.
Qed.

(** C4.  [checkScheduleConflicts] of the service filters on [startTime] and
    [endTime], which no stored schedule has: it returns no schedule,
    whatever the store, the technician and the window.  With the scheduled
    visit of technician 2 from 9 to 11 in the store, the conflict query of
    the controller for technician 2 and the window from 10 to 12 returns
    the visit, and [checkScheduleConflicts] returns nothing. *)
Theorem checkScheduleConflicts_misses_overlap :
  (forall tech s e exclude st, checkScheduleConflicts tech s e exclude st = [])
  /\ SchedulingController.findConflicts
       2 10 12 None (store [visit 1 9 11 scheduled]) = [visit 1 9 11 scheduled]
  /\ checkScheduleConflicts
       2 10 12 None (serviceStore staff [visit 1 9 11 scheduled]) = [].
Proof.
  split; [exact checkScheduleConflicts_nil|]. split; reflexivity.
Qed.

(** C6.  The busy set of [getAvailableTechnicians] is found with the same
    clauses on [startTime] and [endTime] and is empty for every store: the
    function returns every user of type [technician].  Technician 2, with a
    scheduled visit from 9 to 11, is returned for the window from 10 to
    12. *)
Theorem getAvailableTechnicians_returns_busy_technician :
  (forall s e st,
      getAvailableTechnicians s e st =
      filter (fun u => UserType_beq (User.userType u) technician) (users st))
  /\ (let active := visit 1 9 11 scheduled in
      let st := serviceStore staff [active] in
      In active (schedules st)
      /\ Schedule.technician active = 2
      /\ Schedule.status active = scheduled
      /\ (Schedule.scheduledStart active < 12
          /\ Schedule.scheduledEnd active > 10)%Z
      /\ getAvailableTechnicians 10 12 st =
         [ {| User._id := 2; User.userType := technician |};
           {| User._id := 3; User.userType := technician |} ]).
Proof.
  split; [exact getAvailableTechnicians_eq|].
  cbn zeta. split; [left; reflexivity|].
  repeat split; reflexivity.
Qed.

(** [Schedule.create] rejects every object of the service: the document
    made of it has no [scheduledStart], [scheduledEnd] and [createdBy]. *)
Lemma Schedule_create_rejects d st :
  Schedule_create d st = (st, Rejected (ValidationError "Schedule")).
Proof.
  unfold Schedule_create, validate, cast. cbn.
  destruct (ScheduleData.supportRequest d); reflexivity.
Qed.

(** [createSchedule] of the service finds no conflict and ends at
    [Schedule.create]. *)
Lemma createSchedule_settles d st :
  createSchedule d st = (st, Rejected (ValidationError "Schedule")).
Proof.
  unfold createSchedule, bind, query.
  rewrite checkScheduleConflicts_nil. cbn [List.length Nat.ltb Nat.leb].
  rewrite Schedule_create_rejects. reflexivity.
Qed.

Lemma autoAssignTechnician_settles rid preferred hours st :
  autoAssignTechnician rid preferred hours st =
  (st, Rejected
         match findRequest rid st with
         | None => Error "Support request not found"
         | Some _ =>
           match filter (fun u => UserType_beq (User.userType u) technician)
                        (users st) with
           | [] => Error "No technicians available for the requested time slot"
           | _ :: _ => ValidationError "Schedule"
           end
         end).
Proof.
  unfold autoAssignTechnician, bind, query.
  destruct (findRequest rid st) as [r|]; [|reflexivity].
  rewrite getAvailableTechnicians_eq.
  destruct (filter _ (users st)) as [|t l]; [reflexivity|].
  apply createSchedule_settles.
Qed.

(** C7.  [autoAssignTechnician] creates no schedule: it throws for a
    missing request and for a store without technicians, and otherwise
    [Schedule.create] rejects the object it built, which names the window
    [startTime]/[endTime] and has no [createdBy]; the store is as it was.
    The object has no [priority] either.  For request 10, whose priority
    is [high], and the technicians 2 and 3 without schedules, the call
    ends in the [ValidationError] of [Schedule]. *)
Theorem autoAssignTechnician_creates_no_schedule :
  (forall rid preferred hours st,
      autoAssignTechnician rid preferred hours st =
      (st, Rejected
             match findRequest rid st with
             | None => Error "Support request not found"
             | Some _ =>
               match filter (fun u => UserType_beq (User.userType u) technician)
                            (users st) with
               | [] =>
                 Error "No technicians available for the requested time slot"
               | _ :: _ => ValidationError "Schedule"
               end
             end))
  /\ (forall rid r t s e,
         ScheduleData.priority (scheduleDataFor rid r t s e) = None)
  /\ SupportRequest.priority (request "new" high) = high
  /\ autoAssignTechnician 10 9 None (serviceStore staff []) =
     (serviceStore staff [], Rejected (ValidationError "Schedule")).
Proof.
  split; [exact autoAssignTechnician_settles|].
  split; [reflexivity|]. split; [reflexivity|].
  rewrite autoAssignTechnician_settles. reflexivity.
Qed.

End ServiceClaims.

(** ** Properties of sorted listings *)

Section SortFacts.
Context {A : Type} (key : A -> Z).

Lemma insert_by_perm (x : A) (l : list A) :
  Permutation (insert_by key x l) (x :: l).
Proof.
  induction l as [|y l IH]; simpl; [reflexivity|].
  destruct (Z.leb (key x) (key y)); [reflexivity|].
  rewrite IH. apply perm_swap.
Qed.

Lemma sort_by_perm (l : list A) : Permutation (sort_by key l) l.
Proof.
  induction l as [|x l IH]; simpl; [reflexivity|].
  rewrite insert_by_perm. constructor. exact IH.
Qed.

Lemma In_sort_by (l : list A) (x : A) : In x (sort_by key l) <-> In x l.
Proof.
  split; apply Permutation_in; [|symmetry]; apply sort_by_perm.
Qed.

Lemma insert_by_sorted (x : A) (l : list A) :
  StronglySorted (fun a b => (key a <= key b)%Z) l ->
  StronglySorted (fun a b => (key a <= key b)%Z) (insert_by key x l).
Proof.
  induction l as [|y l IH]; simpl; intros Hs.
  - constructor; constructor.
  - destruct (Z.leb (key x) (key y)) eqn:E.
    + apply Z.leb_le in E. constructor; [exact Hs|].
      constructor; [exact E|].
      inversion Hs as [|? ? _ Hall]; subst.
      rewrite Forall_forall in *. intros z Hz. specialize (Hall z Hz). lia.
    + apply Z.leb_gt in E. inversion Hs as [|? ? Hl Hall]; subst.
      constructor; [apply IH; exact Hl|].
      rewrite Forall_forall in *. intros z Hz.
      apply (Permutation_in _ (insert_by_perm x l)) in Hz.
      destruct Hz as [<-|Hz]; [lia | apply Hall; exact Hz].
Qed.

Lemma sort_by_sorted (l : list A) :
  StronglySorted (fun a b => (key a <= key b)%Z) (sort_by key l).
Proof.
  induction l as [|x l IH]; simpl; [constructor|].
  apply insert_by_sorted. exact IH.
Qed.

End SortFacts.

(** ** Properties of the read handlers *)

Section ReadClaims.
Import SchedulingController SchedulingReads Examples.

(** X1.  [getSchedule] shows a technician the schedules of that technician
    only: whatever [technicianId] the query names, a schedule is listed
    exactly when it is stored, belongs to the user and passes the date and
    status clauses. *)
Theorem getSchedule_technician_sees_own user q db :
  userType user = technician ->
  exists l,
    getSchedule user q db = (200, Schedules l)
    /\ forall s,
        In s l <->
        In s (schedules db)
        /\ Schedule.technician s = userId user
        /\ in_range (Query.startDate q) (Query.endDate q) s = true
        /\ matches_option ScheduleStatus_beq (Query.status q)
                          (Schedule.status s) = true.
Proof.
  intros Hu. unfold getSchedule, may_read, queried_technician. rewrite Hu.
  cbn [UserType_beq orb negb]. eexists. split; [reflexivity|].
  intros s. rewrite In_sort_by, filter_In, !andb_true_iff.
  cbn [matches_option]. rewrite Nat.eqb_eq. tauto.
Qed.

Lemma getSchedule_technician_sees_own_witness :
  exists l,
    getSchedule techUser
                {| Query.startDate := None; Query.endDate := None;
                   Query.technicianId := Some 3; Query.status := None;
                   Query.date := None |}
                (store [visit 1 9 11 scheduled]) = (200, Schedules l)
    /\ In (visit 1 9 11 scheduled) l.
Proof.
  destruct (getSchedule_technician_sees_own
              techUser
              {| Query.startDate := None; Query.endDate := None;
                 Query.technicianId := Some 3; Query.status := None;
                 Query.date := None |}
              (store [visit 1 9 11 scheduled]) eq_refl) as (l & Heq & Hin).
  exists l. split; [exact Heq|].
  apply Hin. repeat split. left. reflexivity.
Defined.

(** X2.  The listing of [getSchedule] is in ascending order of
    [scheduledStart] and holds each matching schedule as often as the
    collection does. *)
Theorem getSchedule_sorted user q db l :
  getSchedule user q db = (200, Schedules l) ->
  StronglySorted
    (fun a b => (Schedule.scheduledStart a <= Schedule.scheduledStart b)%Z) l
  /\ Permutation
       l
       (filter (fun s =>
                  in_range (Query.startDate q) (Query.endDate q) s
                  && matches_option Nat.eqb (queried_technician user q)
                                    (Schedule.technician s)
                  && matches_option ScheduleStatus_beq (Query.status q)
                                    (Schedule.status s))
               (schedules db)).
Proof.
  unfold getSchedule. destruct (negb (may_read user)); [discriminate|].
  intros [= <-]. split; [apply sort_by_sorted | apply sort_by_perm].
Qed.

Lemma getSchedule_sorted_witness :
  StronglySorted
    (fun a b => (Schedule.scheduledStart a <= Schedule.scheduledStart b)%Z)
    [visit 2 9 11 completed; visit 1 13 14 scheduled].
Proof.
  apply (getSchedule_sorted
           adminUser
           {| Query.startDate := None; Query.endDate := None;
              Query.technicianId := None; Query.status := None;
              Query.date := None |}
           (store [visit 1 13 14 scheduled; visit 2 9 11 completed])).
  reflexivity.
Defined.

(** X3.  With both [startDate] and [endDate], [getSchedule] lists the
    schedules that lie inside the range, from [startDate] to [endDate]; a
    schedule that starts before [startDate] or ends after [endDate] is not
    listed, even if it overlaps the range. *)
Theorem getSchedule_range_is_containment user q db a b l s :
  Query.startDate q = Some a ->
  Query.endDate q = Some b ->
  getSchedule user q db = (200, Schedules l) ->
  In s l ->
  (a <= Schedule.scheduledStart s /\ Schedule.scheduledEnd s <= b)%Z.
Proof.
  intros Ha Hb. unfold getSchedule.
  destruct (negb (may_read user)); [discriminate|].
  intros [= <-]. rewrite In_sort_by, filter_In, !andb_true_iff.
  unfold in_range. rewrite Ha, Hb, andb_true_iff, !Z.leb_le. tauto.
Qed.

Lemma getSchedule_range_is_containment_witness :
  getSchedule adminUser
              {| Query.startDate := Some 10%Z; Query.endDate := Some 20%Z;
                 Query.technicianId := None; Query.status := None;
                 Query.date := None |}
              (store [visit 1 9 11 scheduled; visit 2 12 14 scheduled]) =
  (200, Schedules [visit 2 12 14 scheduled])
  /\ (10 <= 12 /\ 14 <= 20)%Z.
Proof.
  split; [reflexivity|].
  apply (getSchedule_range_is_containment
           adminUser
           {| Query.startDate := Some 10%Z; Query.endDate := Some 20%Z;
              Query.technicianId := None; Query.status := None;
              Query.date := None |}
           (store [visit 1 9 11 scheduled; visit 2 12 14 scheduled])
           10%Z 20%Z [visit 2 12 14 scheduled] (visit 2 12 14 scheduled));
    try reflexivity.
  left. reflexivity.
Defined.

(** X4.  [getTechnicianAssignments] answers technicians only, an admin too
    gets 403, and lists schedules of the asking technician only, in
    ascending order of [scheduledStart]. *)
Theorem getTechnicianAssignments_own startOfDay endOfDay user q db :
  (userType user <> technician ->
   getTechnicianAssignments startOfDay endOfDay user q db =
   (403, Denied "Access denied"))
  /\ (userType user = technician ->
      exists l,
        getTechnicianAssignments startOfDay endOfDay user q db =
        (200, Assignments l)
        /\ (forall s, In s l ->
                      In s (schedules db)
                      /\ Schedule.technician s = userId user)
        /\ StronglySorted
             (fun a b =>
                (Schedule.scheduledStart a <= Schedule.scheduledStart b)%Z) l).
Proof.
  unfold getTechnicianAssignments. split.
  - intros Hu. destruct (UserType_beq (userType user) technician) eqn:E;
      [apply UserType_beq_eq in E; contradiction | reflexivity].
  - intros Hu. rewrite Hu. cbn [UserType_beq negb].
    eexists. split; [reflexivity|]. split; [|apply sort_by_sorted].
    intros s. rewrite In_sort_by, filter_In, !andb_true_iff, Nat.eqb_eq.
    tauto.
Qed.

Lemma getTechnicianAssignments_own_witness :
  getTechnicianAssignments
    (fun d => d) (fun d => d) adminUser
    {| Query.startDate := None; Query.endDate := None;
       Query.technicianId := None; Query.status := None; Query.date := None |}
    (store [visit 1 9 11 scheduled]) = (403, Denied "Access denied")
  /\ exists l,
      getTechnicianAssignments
        (fun d => d) (fun d => d) techUser
        {| Query.startDate := None; Query.endDate := None;
           Query.technicianId := None; Query.status := None;
           Query.date := None |}
        (store [visit 1 9 11 scheduled]) = (200, Assignments l).
Proof.
  split.
  - apply (getTechnicianAssignments_own (fun d => d) (fun d => d) adminUser).
    discriminate.
  - destruct (proj2 (getTechnicianAssignments_own
                       (fun d => d) (fun d => d) techUser
                       {| Query.startDate := None; Query.endDate := None;
                          Query.technicianId := None; Query.status := None;
                          Query.date := None |}
                       (store [visit 1 9 11 scheduled])) eq_refl)
      as (l & Heq & _).
    exists l. exact Heq.
Defined.

End ReadClaims.

(** ** Further properties of the write handlers *)

Section WriteFacts.
Import SchedulingController Booking Examples.






(** X6.  [createSchedule] never changes or removes a stored schedule or a
    user: the schedules after the call are the schedules before it, followed
    by at most one new schedule, whose status is [scheduled], whose creator
    is the asking user and whose id no stored schedule has. *)
Theorem createSchedule_only_appends user body db :
  users (fst (createSchedule user body db)) = users db
  /\ (schedules (fst (createSchedule user body db)) = schedules db
      \/ exists sch,
          schedules (fst (createSchedule user body db)) = schedules db ++ [sch]
          /\ Schedule.status sch = scheduled
          /\ Schedule.createdBy sch = userId user
          /\ ~ In (Schedule._id sch) (map Schedule._id (schedules db))).
Proof.
  destruct (Nat.eq_dec (code (snd (createSchedule user body db))) 201)
    as [Hcode|Hcode].
  - destruct (createSchedule_success_inv user body db Hcode)
      as (tid & s & e & tech & sr & _ & _ & _ & _ & _ & _ & _ & _ & Heq).
    rewrite Heq. split.
    + unfold persist_and_respond. cbn [fst].
      destruct (String.eqb (SupportRequest.status sr) "new"); reflexivity.
    + right. exists (newSchedule user body tid s e sr db).
      rewrite persist_and_respond_schedules.
      repeat split. apply fresh_id_not_in.
  - rewrite (createSchedule_failure_unchanged user body db Hcode). auto.
Qed.

Lemma or_else_idem {A : Type} (x : option A) (old : A) :
  or_else x (or_else x old) = or_else x old.
Proof. destruct x; reflexivity. Qed.

Lemma or_notes_idem (n old : option string) :
  or_notes n (or_notes n old) = or_notes n old.
Proof.
  unfold or_notes. destruct n as [s|]; [|reflexivity].
  destruct (String.eqb s EmptyString); reflexivity.
Qed.

Lemma patched_idem user body sch :
  patched user body (patched user body sch) = patched user body sch.
Proof.
  unfold patched. destruct (UserType_beq (userType user) technician);
    unfold set_status_notes, set_window; cbn;
    rewrite ?or_else_idem, ?or_notes_idem; reflexivity.
Qed.

Lemma Schedule_save_idem s db :
  Schedule_save s (Schedule_save s db) = Schedule_save s db.
Proof.
  unfold Schedule_save. cbn. f_equal. rewrite map_map. apply map_ext.
  intros d. destruct (Nat.eqb (Schedule._id d) (Schedule._id s)) eqn:E.
  - rewrite Nat.eqb_refl. reflexivity.
  - rewrite E. reflexivity.
Qed.

(** The conflict query without the id of a schedule does not see what was
    saved under that id. *)
Lemma findConflicts_save tech s e p db :
  findConflicts tech s e (Some (Schedule._id p)) (Schedule_save p db) =
  findConflicts tech s e (Some (Schedule._id p)) db.
Proof.
  unfold findConflicts, Schedule_save. cbn [schedules].
  induction (schedules db) as [|d l IH]; [reflexivity|]. cbn [map filter].
  destruct (Nat.eqb (Schedule._id d) (Schedule._id p)) eqn:E.
  - rewrite Nat.eqb_refl. cbn [negb andb]. exact IH.
  - rewrite E. cbn [negb andb]. rewrite IH. reflexivity.
Qed.

(** X7.  [updateSchedule] is idempotent: the same request sent again to the
    store that the first call left gives the same store and the same
    response. *)
Theorem updateSchedule_idempotent user id body db :
  updateSchedule user id body (fst (updateSchedule user id body db)) =
  updateSchedule user id body db.
Proof.
  destruct (updateSchedule_store user id body db)
    as [Hsame | (sch & Hfind & Hcode & Hdb)].
  - rewrite Hsame. reflexivity.
  - destruct (Schedule_findById_id _ _ _ Hfind) as [_ Hid].
    destruct (patched_frame user body sch) as (Pid & Ptech & _).
    assert (Hfind' : Schedule_findById id (Schedule_save (patched user body sch) db)
                     = Some (patched user body sch)).
    { pose proof (findById_save_same (patched user body sch) db sch) as Hs.
      rewrite Pid, Hid in Hs. exact (Hs Hfind). }
    rewrite Hdb. revert Hcode.
    rewrite (updateSchedule_eq user id body db).
    rewrite (updateSchedule_eq user id body
                               (Schedule_save (patched user body sch) db)).
    rewrite Hfind, Hfind', Ptech, patched_idem, Schedule_save_idem.
    destruct (negb (UserType_beq (userType user) admin)
              && negb (UserType_beq (userType user) technician));
      [simpl; discriminate|].
    destruct (UserType_beq (userType user) technician
              && negb (Nat.eqb (Schedule.technician sch) (userId user)));
      [simpl; discriminate|].
    assert (Hw : or_else (Body.scheduledStart body)
                         (Schedule.scheduledStart (patched user body sch)) =
                 or_else (Body.scheduledStart body) (Schedule.scheduledStart sch)
                 \/ runs_conflict_check user body = false).
    { unfold patched, runs_conflict_check.
      destruct (userType user); cbn; auto; left; apply or_else_idem. }
    assert (Hw' : or_else (Body.scheduledEnd body)
                          (Schedule.scheduledEnd (patched user body sch)) =
                  or_else (Body.scheduledEnd body) (Schedule.scheduledEnd sch)
                  \/ runs_conflict_check user body = false).
    { unfold patched, runs_conflict_check.
      destruct (userType user); cbn; auto; left; apply or_else_idem. }
    destruct (runs_conflict_check user body) eqn:Hrc; cbn [andb].
    + destruct Hw as [->|Hw]; [|discriminate].
      destruct Hw' as [->|Hw']; [|discriminate].
      rewrite <- Hid at 3. rewrite <- Pid. rewrite findConflicts_save.
      rewrite Pid, Hid.
      destruct (Nat.ltb 0 _); [simpl; discriminate|]. reflexivity.
    + reflexivity.
Qed.

End WriteFacts.

Section WriteFactsMore.
Import SchedulingController Booking Examples Requests.

Lemma NoDup_map_inj {A B : Type} (f : A -> B) (l : list A) (a b : A) :
  NoDup (map f l) -> In a l -> In b l -> f a = f b -> a = b.
Proof.
  induction l as [|x l IH]; simpl; [intros _ []|].
  intros Hnd Ha Hb Hf. inversion Hnd as [|? ? Hx Hl]; subst.
  destruct Ha as [->|Ha]; destruct Hb as [->|Hb]; auto.
  - exfalso. apply Hx. rewrite Hf. apply in_map. exact Hb.
  - exfalso. apply Hx. rewrite <- Hf. apply in_map. exact Ha.
Qed.

Lemma Schedule_save_same sch db :
  unique_ids db -> In sch (schedules db) -> Schedule_save sch db = db.
Proof.
  intros Hu Hin. unfold Schedule_save. destruct db as [us rs l]. cbn in *.
  f_equal. rewrite <- (map_id l) at 2. apply map_ext_in. intros d Hd.
  destruct (Nat.eqb (Schedule._id d) (Schedule._id sch)) eqn:E; [|reflexivity].
  apply Nat.eqb_eq in E. symmetry.
  apply (NoDup_map_inj Schedule._id l d sch Hu Hd Hin E).
Qed.

(** X8.  A patch without [status], [scheduledStart] and [scheduledEnd] and
    with no or empty [notes] changes nothing: in a store of distinct ids the
    store after [updateSchedule] is the store before, whoever asks and
    whatever other keys the body holds. *)
Theorem updateSchedule_empty_patch user id body db :
  unique_ids db ->
  Body.status body = None ->
  Body.scheduledStart body = None ->
  Body.scheduledEnd body = None ->
  or_notes (Body.notes body) None = None ->
  fst (updateSchedule user id body db) = db.
Proof.
  intros Hu Hst Hs He Hn.
  destruct (updateSchedule_store user id body db)
    as [Hsame | (sch & Hfind & _ & Hdb)]; [exact Hsame|].
  rewrite Hdb.
  destruct (Schedule_findById_id _ _ _ Hfind) as [Hin _].
  assert (Hp : patched user body sch = sch).
  { unfold patched. rewrite Hst, Hs, He.
    assert (Hnotes : or_notes (Body.notes body) (Schedule.notes sch) =
                     Schedule.notes sch).
    { unfold or_notes in *. destruct (Body.notes body) as [n|]; [|reflexivity].
      destruct (String.eqb n EmptyString); [reflexivity | discriminate]. }
    rewrite Hnotes. destruct sch.
    destruct (UserType_beq (userType user) technician); reflexivity. }
  rewrite Hp. apply Schedule_save_same; assumption.
Qed.

Lemma updateSchedule_empty_patch_witness :
  fst (updateSchedule adminUser 1 otherKeysBody (store [visit 1 9 11 scheduled]))
  = store [visit 1 9 11 scheduled].
Proof.
  apply updateSchedule_empty_patch; try reflexivity.
  unfold unique_ids. simpl. constructor; [intros []|constructor].
Defined.

(** X9.  The conflict query of the controller is empty exactly when every
    stored schedule of the technician with a non-terminal status (other than
    the excluded one) ends at or before the start of the window or starts
    at or after its end: touching windows do not conflict, completed and
    cancelled schedules never do. *)
Theorem findConflicts_empty_iff tech s e exclude db :
  findConflicts tech s e exclude db = [] <->
  forall c,
    In c (schedules db) ->
    Schedule.technician c = tech ->
    non_terminal c ->
    (forall id, exclude = Some id -> Schedule._id c <> id) ->
    (Schedule.scheduledEnd c <= s \/ e <= Schedule.scheduledStart c)%Z.
Proof.
  split.
  - intros Hnil c Hin Htech Hnt Hex.
    pose proof (findConflicts_nil tech s e exclude db Hnil c Hin Htech Hnt Hex).
    lia.
  - intros H. destruct (findConflicts tech s e exclude db) as [|c l] eqn:E;
      [reflexivity|].
    assert (Hc : In c (findConflicts tech s e exclude db))
      by (rewrite E; left; reflexivity).
    apply In_findConflicts in Hc.
    destruct Hc as (Hin & Htech & Hov & Hnt & Hex).
    specialize (H c Hin Htech Hnt Hex). lia.
Qed.

(** X10.  [updateSchedule] answers 200, 400, 403 or 404, and the store
    changes only with the answer 200: an unknown id gives 404, a user who
    is neither admin nor technician and a technician who asks for a
    schedule of another technician get 403. *)
Theorem updateSchedule_answers user id body db :
  (code (snd (updateSchedule user id body db)) = 200
   \/ (fst (updateSchedule user id body db) = db
       /\ (code (snd (updateSchedule user id body db)) = 400
           \/ code (snd (updateSchedule user id body db)) = 403
           \/ code (snd (updateSchedule user id body db)) = 404)))
  /\ (Schedule_findById id db = None ->
      may_update user = true ->
      updateSchedule user id body db =
      (db, respond 404 (Message "Schedule not found")))
  /\ (may_update user = false ->
      updateSchedule user id body db = (db, respond 403 (Message "Access denied")))
  /\ (forall sch,
         Schedule_findById id db = Some sch ->
         userType user = technician ->
         Schedule.technician sch <> userId user ->
         updateSchedule user id body db =
         (db, respond 403 (Message "You can only update your own schedules"))).
Proof.
  rewrite updateSchedule_eq. unfold may_update. repeat split.
  - destruct (negb _ && negb _); [right; cbn; auto|].
    destruct (Schedule_findById id db) as [sch|]; [|right; cbn; auto].
    destruct (_ && negb _); [right; cbn; auto|].
    destruct (_ && _); [right; cbn; auto | left; reflexivity].
  - intros Hnone Hmay. rewrite Hnone.
    destruct (userType user); try discriminate; reflexivity.
  - intros Hmay. destruct (userType user); try discriminate; reflexivity.
  - intros sch Hfind Htech Hown. rewrite Hfind, Htech.
    apply Nat.eqb_neq in Hown. rewrite Hown. reflexivity.
Qed.

Lemma updateSchedule_answers_witness :
  updateSchedule adminUser 7 (statusBody completed) (store []) =
  (store [], respond 404 (Message "Schedule not found"))
  /\ updateSchedule {| userId := 4; userType := business |} 1
                    (statusBody completed) (store [visit 1 9 11 scheduled]) =
     (store [visit 1 9 11 scheduled], respond 403 (Message "Access denied"))
  /\ updateSchedule {| userId := 3; userType := technician |} 1
                    (statusBody completed) (store [visit 1 9 11 scheduled]) =
     (store [visit 1 9 11 scheduled],
      respond 403 (Message "You can only update your own schedules")).
Proof.
  split; [|split].
  - apply (updateSchedule_answers adminUser 7 (statusBody completed) (store []));
      reflexivity.
  - apply (updateSchedule_answers {| userId := 4; userType := business |} 1
                                  (statusBody completed)
                                  (store [visit 1 9 11 scheduled])).
    reflexivity.
  - destruct (updateSchedule_answers {| userId := 3; userType := technician |} 1
                                     (statusBody completed)
                                     (store [visit 1 9 11 scheduled]))
      as (_ & _ & _ & Hown).
    apply (Hown (visit 1 9 11 scheduled)); try reflexivity. discriminate.
Defined.

End WriteFactsMore.

(** ** Further properties of the scheduling service *)

Section ServiceFacts.
Import Examples.
Import SchedulingService SchedulingServiceOps.

(** X11.  [createSchedule] of the service, for every object with the keys
    the service reads and builds and every store, reports no conflict,
    stores nothing and ends in the [ValidationError] of [Schedule]: no
    schedule and no notification is created and no support request is
    changed. *)
Theorem service_createSchedule_rejects d st :
  createSchedule d st = (st, Rejected (ValidationError "Schedule")).
Proof. apply createSchedule_settles. Qed.

(** The notifications the service makes for a technician have a [type]
    and a [relatedTo.model] outside the enums of the schema. *)
Lemma Notification_create_scheduling user title id st :
  Notification_create
    {| Notification.user := user;
       Notification.title := title;
       Notification.type := "scheduling";
       Notification.relatedToModel := "Schedule";
       Notification.relatedToId := id |} st =
  (st, Rejected (ValidationError "Notification")).
Proof. reflexivity. Qed.

Lemma remove_first_absent id l :
  find (fun c => Nat.eqb (Schedule._id c) id) l = None ->
  remove_first id l = l.
Proof.
  induction l as [|c l IH]; [reflexivity|]. cbn [find remove_first].
  destruct (Nat.eqb (Schedule._id c) id); [discriminate|].
  intros H. rewrite (IH H). reflexivity.
Qed.

Lemma remove_first_split id l schedule :
  find (fun c => Nat.eqb (Schedule._id c) id) l = Some schedule ->
  exists l1 l2,
    l = l1 ++ schedule :: l2
    /\ remove_first id l = l1 ++ l2
    /\ forall c, In c l1 -> Schedule._id c <> id.
Proof.
  induction l as [|c l IH]; [discriminate|]. cbn [find remove_first].
  destruct (Nat.eqb (Schedule._id c) id) eqn:E.
  - intros [= <-]. exists [], l. repeat split. intros x [].
  - intros H. destruct (IH H) as (l1 & l2 & -> & Hr & Hl1).
    exists (c :: l1), l2. rewrite Hr. repeat split.
    intros x [<-|Hx]; [apply Nat.eqb_neq; exact E | apply Hl1; exact Hx].
Qed.

Lemma find_remove_first_other id j l :
  j <> id ->
  find (fun c => Nat.eqb (Schedule._id c) j) (remove_first id l) =
  find (fun c => Nat.eqb (Schedule._id c) j) l.
Proof.
  intros Hne. induction l as [|c l IH]; [reflexivity|].
  cbn [remove_first]. destruct (Nat.eqb (Schedule._id c) id) eqn:E.
  - cbn [find]. apply Nat.eqb_eq in E.
    destruct (Nat.eqb (Schedule._id c) j) eqn:F; [|reflexivity].
    apply Nat.eqb_eq in F. congruence.
  - cbn [find]. rewrite IH. reflexivity.
Qed.

Lemma deleteSchedule_eq id st :
  deleteSchedule id st =
  ({| users := users st;
      supportRequests := supportRequests st;
      schedules := remove_first id (schedules st);
      notifications := notifications st |},
   Rejected match findSchedule id st with
            | None => Error "Schedule not found"
            | Some _ => ValidationError "Notification"
            end).
Proof.
  unfold deleteSchedule, bind, Schedule_findByIdAndDelete, throw.
  destruct (findSchedule id st) as [schedule|]; [|reflexivity].
  rewrite Notification_create_scheduling. reflexivity.
Qed.

(** X14.  [deleteSchedule] never returns.  For an id of no stored schedule
    it throws "Schedule not found" and the store is as it was.  For a
    stored schedule, the schedule leaves the collection and the call ends
    in the [ValidationError] of the notification for the technician: the
    support request keeps its status, no notification is stored, and the
    other schedules stay. *)
Theorem deleteSchedule_removes_then_rejects id st :
  users (fst (deleteSchedule id st)) = users st
  /\ supportRequests (fst (deleteSchedule id st)) = supportRequests st
  /\ notifications (fst (deleteSchedule id st)) = notifications st
  /\ (forall j, j <> id ->
                findSchedule j (fst (deleteSchedule id st)) = findSchedule j st)
  /\ match findSchedule id st with
     | None =>
       deleteSchedule id st = (st, Rejected (Error "Schedule not found"))
     | Some schedule =>
       snd (deleteSchedule id st) = Rejected (ValidationError "Notification")
       /\ exists l1 l2,
           schedules st = l1 ++ schedule :: l2
           /\ schedules (fst (deleteSchedule id st)) = l1 ++ l2
           /\ forall c, In c l1 -> Schedule._id c <> id
     end.
Proof.
  rewrite deleteSchedule_eq. cbn [fst snd users supportRequests notifications].
  repeat (split; [reflexivity|]). split.
  - intros j Hne. unfold findSchedule. cbn [schedules].
    apply find_remove_first_other. exact Hne.
  - unfold findSchedule.
    destruct (find _ (schedules st)) as [schedule|] eqn:Hfind.
    + split; [reflexivity|]. cbn [schedules].
      destruct (remove_first_split _ _ _ Hfind) as (l1 & l2 & H1 & H2 & H3).
      exists l1, l2. auto.
    + rewrite (remove_first_absent _ _ Hfind). destruct st; reflexivity.
Qed.

Lemma date_at_startTime (c : Schedule.t) : date_at "startTime" c = None.
Proof. reflexivity. Qed.

Lemma sort_by_path_startTime l : sort_by_path "startTime" l = l.
Proof.
  unfold sort_by_path.
  rewrite filter_everything by reflexivity.
  rewrite filter_nothing by reflexivity.
  cbn [sort_by fold_right]. apply app_nil_r.
Qed.

(** X16.  [getTechnicianSchedules] without dates lists the schedules of the
    technician, all of them and no other; with [startDate] or [endDate] it
    lists nothing, because the dates are compared with [startTime] and
    [endTime], which no stored schedule has. *)
Theorem getTechnicianSchedules_lists technicianId filters st :
  match Filters.startDate filters, Filters.endDate filters with
  | None, None =>
    Permutation (getTechnicianSchedules technicianId filters st)
                (filter (fun c => Nat.eqb (Schedule.technician c) technicianId)
                        (schedules st))
  | _, _ => getTechnicianSchedules technicianId filters st = []
  end.
Proof.
  unfold getTechnicianSchedules. rewrite sort_by_path_startTime.
  unfold in_filters.
  destruct (Filters.startDate filters) as [a|], (Filters.endDate filters) as [b|].
  - apply filter_nothing. intros c.
    rewrite clause_startTime, andb_false_r. reflexivity.
  - apply filter_nothing. intros c.
    rewrite clause_startTime, andb_false_r. reflexivity.
  - apply filter_nothing. intros c.
    rewrite clause_endTime, andb_false_r. reflexivity.
  - erewrite filter_ext; [reflexivity|]. intros c. apply andb_true_r.
Qed.

End ServiceFacts.

(** ** Properties of the support request helpers *)

Section HelperFacts.
Import SupportRequestService.

(** X17.  For a request type with field definitions, [validateDynamicFields]
    on an object returns [valid] exactly when every required field of the
    type has a truthy value, and [missingFields] holds exactly the required
    field names whose value is missing or falsy. *)
Theorem validateDynamicFields_spec t o l :
  getDynamicFieldsForRequestType t = Definitions l ->
  exists r,
    validateDynamicFields t (Some o) = Ok r
    /\ (valid r = true <->
        forall f, In f l -> required f = true ->
                  truthy_value (get o (name f)) = true)
    /\ (forall k,
           In k (missingFields r) <->
           (exists f, In f l /\ required f = true /\ name f = k)
           /\ truthy_value (get o k) = false).
Proof.
  intros Hl. unfold validateDynamicFields. rewrite Hl.
  set (req := map name (filter required l)).
  set (missing := filter (fun f => negb (truthy_value (get o f))) req).
  exists {| valid := Nat.eqb (List.length missing) 0; missingFields := missing |}.
  assert (Hreq : forall k, In k req <->
                           exists f, In f l /\ required f = true /\ name f = k).
  { intros k. unfold req. rewrite in_map_iff. split.
    - intros [f [Hn Hf]]. apply filter_In in Hf. exists f. tauto.
    - intros [f [Hin [Hr Hn]]]. exists f. split; [exact Hn|].
      apply filter_In. auto. }
  assert (Hmiss : forall k, In k missing <->
                            In k req /\ truthy_value (get o k) = false).
  { intros k. unfold missing. rewrite filter_In, negb_true_iff. tauto. }
  split; [destruct req; reflexivity|]. split.
  - cbn [valid]. rewrite Nat.eqb_eq, length_zero_iff_nil. split.
    + intros Hnil f Hin Hr.
      destruct (truthy_value (get o (name f))) eqn:E; [reflexivity|].
      assert (Hk : In (name f) missing).
      { apply Hmiss. split; [|exact E]. apply Hreq. exists f. auto. }
      rewrite Hnil in Hk. destruct Hk.
    + intros H. destruct missing as [|k m]; [reflexivity|]. exfalso.
      destruct (proj1 (Hmiss k) (or_introl eq_refl)) as [Hk Hf].
      apply Hreq in Hk. destruct Hk as (f & Hin & Hr & <-).
      rewrite (H f Hin Hr) in Hf. discriminate.
  - intros k. cbn [missingFields]. rewrite Hmiss, Hreq. tauto.
Qed.

Lemma validateDynamicFields_spec_witness :
  exists r,
    validateDynamicFields
      "network" (Some [("networkType"%string, JStr "internet");
                       ("deviceAffected"%string, JStr "")]) = Ok r
    /\ missingFields r = ["deviceAffected"%string].
Proof.
  destruct (validateDynamicFields_spec
              "network" [("networkType"%string, JStr "internet");
                         ("deviceAffected"%string, JStr "")]
              [field "networkType" "string" true;
               field "deviceAffected" "string" true;
               field "connectionType" "string" false] eq_refl)
    as (r & Hr & _).
  exists r. split; [exact Hr|].
  cbv in Hr. injection Hr as <-. reflexivity.
Defined.

(** X18.  Edge cases of [validateDynamicFields].  A request type named like
    a member of [Object.prototype] raises a [TypeError].  Any other request
    type without field definitions, and the type "other", is valid whatever
    the dynamic fields are, even [undefined].  A type with required fields
    raises a [TypeError] when the dynamic fields are [undefined]. *)
Theorem validateDynamicFields_edges :
  (forall t d, In t objectPrototypeKeys -> validateDynamicFields t d = TypeError)
  /\ (forall t d,
         ~ In t (map fst fieldDefinitions) -> ~ In t objectPrototypeKeys ->
         validateDynamicFields t d = Ok {| valid := true; missingFields := [] |})
  /\ (forall d,
         validateDynamicFields "other" d =
         Ok {| valid := true; missingFields := [] |})
  /\ (forall t,
         In t ["hardware"; "software"; "network"; "account"]%string ->
         validateDynamicFields t None = TypeError).
Proof.
  repeat split.
  - intros t d Hin. cbn in Hin.
    repeat (destruct Hin as [<-|Hin]; [reflexivity|]). destruct Hin.
  - intros t d Hdef Hproto. unfold validateDynamicFields,
      getDynamicFieldsForRequestType.
    assert (Hl : lookup_fields t fieldDefinitions = None).
    { unfold fieldDefinitions in *. cbn [map fst In] in Hdef.
      cbn [lookup_fields].
      repeat match goal with
             | |- context [String.eqb ?k t] =>
               let E := fresh "E" in
               destruct (String.eqb k t) eqn:E;
                 [apply String.eqb_eq in E; exfalso; apply Hdef; tauto|]
             end.
      reflexivity. }
    rewrite Hl.
    destruct (existsb (String.eqb t) objectPrototypeKeys) eqn:E.
    + exfalso. apply Hproto. apply existsb_exists in E.
      destruct E as [k [Hk Hkt]]. apply String.eqb_eq in Hkt. subst k. exact Hk.
    + cbn [filter map]. destruct d; reflexivity.
  - intros d. destruct d; reflexivity.
  - intros t Hin. cbn in Hin.
    repeat (destruct Hin as [<-|Hin]; [reflexivity|]). destruct Hin.
Qed.

Lemma validateDynamicFields_edges_witness :
  validateDynamicFields "toString" (Some []) = TypeError
  /\ validateDynamicFields "printer" None =
     Ok {| valid := true; missingFields := [] |}
  /\ validateDynamicFields "account" None = TypeError.
Proof.
  destruct validateDynamicFields_edges as (Hp & Hu & _ & Hn).
  split; [|split].
  - apply Hp. cbn. tauto.
  - apply Hu; cbn; intros H;
      repeat (destruct H as [H|H]; [discriminate H|]); exact H.
  - apply Hn. cbn. tauto.
Defined.

Lemma validateDynamicFields_object t o l :
  getDynamicFieldsForRequestType t = Definitions l ->
  validateDynamicFields t (Some o) =
  Ok {| valid :=
          Nat.eqb
            (List.length
               (filter (fun f => negb (truthy_value (get o f)))
                       (map name (filter required l)))) 0;
        missingFields :=
          filter (fun f => negb (truthy_value (get o f)))
                 (map name (filter required l)) |}.
Proof.
  intros H. unfold validateDynamicFields. rewrite H.
  destruct (map name (filter required l)); reflexivity.
Qed.

Lemma filter_none {A : Type} (p : A -> bool) (l : list A) :
  (forall x, In x l -> p x = false) -> filter p l = [].
Proof.
  induction l as [|x l IH]; simpl; intros H; [reflexivity|].
  rewrite (H x (or_introl eq_refl)). apply IH. intros y Hy. apply H. auto.
Qed.

Lemma get_fill_in ks v o k :
  In k ks -> get (fill ks v o) k = Some v.
Proof.
  unfold fill. induction ks as [|k' ks IH]; simpl; [intros []|].
  intros [->|Hin].
  - rewrite String.eqb_refl. reflexivity.
  - destruct (String.eqb k' k); [reflexivity | apply IH; exact Hin].
Qed.

Lemma get_fill_out ks v o k :
  ~ In k ks -> get (fill ks v o) k = get o k.
Proof.
  unfold fill. induction ks as [|k' ks IH]; simpl; [reflexivity|].
  intros Hn. destruct (String.eqb k' k) eqn:E.
  - apply String.eqb_eq in E. exfalso. apply Hn. left. exact E.
  - apply IH. intros H. apply Hn. right. exact H.
Qed.

(** X19.  Filling in the fields that [validateDynamicFields] reports as
    missing makes the object valid: when the missing fields get a truthy
    value, on top of the object that was checked, the check returns
    [valid] with no missing field. *)
Theorem validateDynamicFields_fill t o r v :
  validateDynamicFields t (Some o) = Ok r ->
  truthy_value (Some v) = true ->
  validateDynamicFields t (Some (fill (missingFields r) v o)) =
  Ok {| valid := true; missingFields := [] |}.
Proof.
  destruct (getDynamicFieldsForRequestType t) as [l|] eqn:Hl;
    [|unfold validateDynamicFields; rewrite Hl; discriminate].
  rewrite (validateDynamicFields_object t o l Hl). intros [= <-] Hv.
  cbn [missingFields].
  rewrite (validateDynamicFields_object t _ l Hl).
  set (req := map name (filter required l)).
  set (missing := filter (fun f => negb (truthy_value (get o f))) req).
  assert (Hnil : filter (fun f => negb (truthy_value (get (fill missing v o) f)))
                        req = []).
  { apply filter_none. intros k Hreq. apply negb_false_iff.
    destruct (in_dec string_dec k missing) as [Hin|Hout].
    - rewrite (get_fill_in missing v o k Hin). exact Hv.
    - rewrite (get_fill_out missing v o k Hout).
      destruct (truthy_value (get o k)) eqn:Hf; [reflexivity|].
      exfalso. apply Hout. apply filter_In. split; [exact Hreq|].
      rewrite Hf. reflexivity. }
  rewrite Hnil. reflexivity.
Qed.

Lemma validateDynamicFields_fill_witness :
  validateDynamicFields
    "account" (Some (fill ["username"%string] (JStr "ada")
                          [("accountType"%string, JStr "admin")])) =
  Ok {| valid := true; missingFields := [] |}.
Proof.
  apply (validateDynamicFields_fill
           "account" [("accountType"%string, JStr "admin")]
           {| valid := false; missingFields := ["username"%string] |}
           (JStr "ada")); reflexivity.
Defined.

Lemma priority_of_score_mono (a b : Z) :
  (a <= b)%Z ->
  priority_rank (priority_of_score a) <= priority_rank (priority_of_score b).
Proof.
  intros H. unfold priority_of_score.
  destruct (Z.leb 8 a) eqn:A8; destruct (Z.leb 8 b) eqn:B8;
    destruct (Z.leb 5 a) eqn:A5; destruct (Z.leb 5 b) eqn:B5;
      destruct (Z.leb 3 a) eqn:A3; destruct (Z.leb 3 b) eqn:B3;
        cbn; try lia;
          rewrite ?Z.leb_le, ?Z.leb_gt in *; lia.
Qed.

Lemma add_if_ge b n score : (0 <= n)%Z -> (score <= add_if b n score)%Z.
Proof. intros H. unfold add_if. destruct b; lia. Qed.

Lemma device_score_ge o score : (score <= device_score o score)%Z.
Proof.
  unfold device_score.
  repeat (etransitivity; [|apply add_if_ge; lia]). lia.
Qed.

(** X20.  Without dynamic fields [calculatePriority] returns [medium] for
    the request types "hardware" and "network" and [low] for every other
    type; dynamic fields never lower this priority. *)
Theorem calculatePriority_base t :
  calculatePriority t None =
  Ok (if String.eqb t "hardware" || String.eqb t "network" then medium else low)
  /\ forall d p p0,
      calculatePriority t None = Ok p0 ->
      calculatePriority t d = Ok p ->
      priority_rank p0 <= priority_rank p.
Proof.
  split.
  - unfold calculatePriority, type_score, add_if.
    destruct (String.eqb t "hardware") eqn:H1.
    { apply String.eqb_eq in H1. subst t. reflexivity. }
    destruct (String.eqb t "network") eqn:H2.
    { apply String.eqb_eq in H2. subst t. reflexivity. }
    destruct (String.eqb t "software") eqn:H3.
    { apply String.eqb_eq in H3. subst t. reflexivity. }
    destruct (String.eqb t "account") eqn:H4.
    { apply String.eqb_eq in H4. subst t. reflexivity. }
    reflexivity.
  - intros d p p0. unfold calculatePriority at 1. intros [= <-].
    destruct d as [o|]; [|intros [= <-]; apply Nat.le_refl].
    unfold calculatePriority.
    pose proof (device_score_ge o (type_score t)) as Hd.
    destruct (truthy_value (get o "softwareName")).
    + destruct (get o "softwareName") as [[s| | | |]|]; try discriminate.
      intros [= <-]. apply priority_of_score_mono.
      etransitivity; [exact Hd | apply add_if_ge; lia].
    + intros [= <-]. apply priority_of_score_mono. exact Hd.
Qed.

Lemma calculatePriority_base_witness :
  priority_rank medium <= priority_rank critical.
Proof.
  destruct (calculatePriority_base "network") as [_ Hmono].
  apply (Hmono (Some [("networkType"%string, JStr "internet")]) critical medium);
    reflexivity.
Defined.

(** X21.  A request whose [deviceType] is "server" is at least [high],
    and [critical] for the types "hardware" and "network"; a request of
    type "network" is never [low]. *)
Theorem calculatePriority_server t o p :
  calculatePriority t (Some o) = Ok p ->
  (is_string (get o "deviceType") "server" = true ->
   2 <= priority_rank p
   /\ (t = "hardware"%string \/ t = "network"%string -> p = critical))
  /\ (t = "network"%string -> p <> low).
Proof.
  unfold calculatePriority. intros Hp.
  assert (Hs : exists score,
             p = priority_of_score score
             /\ (device_score o (type_score t) <= score)%Z).
  { destruct (truthy_value (get o "softwareName")).
    - destruct (get o "softwareName") as [[s| | | |]|]; try discriminate.
      injection Hp as <-. eexists. split; [reflexivity|].
      apply add_if_ge. lia.
    - injection Hp as <-. eexists. split; [reflexivity | lia]. }
  destruct Hs as (score & -> & Hge).
  assert (Ht : (0 <= type_score t)%Z).
  { unfold type_score. repeat (etransitivity; [|apply add_if_ge; lia]). lia. }
  split.
  - intros Hsrv.
    assert (Hdev : (type_score t + 5 <= device_score o (type_score t))%Z).
    { unfold device_score. rewrite Hsrv.
      do 3 (etransitivity; [|apply add_if_ge; lia]). cbn [add_if]. lia. }
    split.
    + change 2 with (priority_rank (priority_of_score 5)).
      apply priority_of_score_mono. lia.
    + intros Hty.
      assert (H3 : (3 <= type_score t)%Z) by (destruct Hty; subst t; cbn; lia).
      unfold priority_of_score.
      destruct (Z.leb 8 score) eqn:E; [reflexivity|].
      apply Z.leb_gt in E. lia.
  - intros -> Hlow.
    pose proof (device_score_ge o (type_score "network")) as Hd.
    change (type_score "network") with 4%Z in *.
    unfold priority_of_score in Hlow.
    destruct (Z.leb 8 score); [discriminate|].
    destruct (Z.leb 5 score); [discriminate|].
    destruct (Z.leb 3 score) eqn:E; [discriminate|].
    apply Z.leb_gt in E. lia.
Qed.

Lemma calculatePriority_server_witness :
  2 <= priority_rank high /\ high <> low.
Proof.
  destruct (calculatePriority_server
              "software" [("deviceType"%string, JStr "server")] high eq_refl)
    as [Hsrv _].
  destruct (calculatePriority_server
              "network" [("connectionType"%string, JStr "wifi")] medium eq_refl)
    as [_ Hnet].
  split; [apply (Hsrv eq_refl) | discriminate].
Defined.

(** X22.  [calculatePriority] raises a [TypeError] exactly when the dynamic
    fields hold a truthy [softwareName] that is not a string. *)
Theorem calculatePriority_type_error t d :
  calculatePriority t d = TypeError <->
  exists o,
    d = Some o
    /\ truthy_value (get o "softwareName") = true
    /\ forall s, get o "softwareName" <> Some (JStr s).
Proof.
  unfold calculatePriority. split.
  - destruct d as [o|]; [|discriminate].
    destruct (truthy_value (get o "softwareName")) eqn:E; [|discriminate].
    destruct (get o "softwareName") as [[s| | | |]|] eqn:G; try discriminate;
      intros _; exists o; (split; [reflexivity|]);
        (split; [rewrite G; exact E|]); intros s'; rewrite G; discriminate.
  - intros (o & -> & Htr & Hns). rewrite Htr.
    destruct (get o "softwareName") as [[s| | | |]|]; try reflexivity.
    exfalso. apply (Hns s). reflexivity.
Qed.

End HelperFacts.

(** ** Properties of the notification service *)

Section NotificationFacts.
Import SchedulingService NotificationService.

Lemma filter_map_stable {A : Type} (q : A -> bool) (g : A -> A) (l : list A) :
  (forall x, q (g x) = q x) -> (forall x, q x = true -> g x = x) ->
  filter q (map g l) = filter q l.
Proof.
  intros Hq Hg. induction l as [|x l IH]; [reflexivity|]. cbn [map filter].
  rewrite Hq, IH. destruct (q x) eqn:E; [rewrite (Hg x E)|]; reflexivity.
Qed.

Lemma findOneAndSetRead_spec p l :
  match findOneAndSetRead p l with
  | (l', None) => l' = l /\ forall n, In n l -> p n = false
  | (l', Some d) =>
    exists l1 n l2,
      l = l1 ++ n :: l2 /\ p n = true
      /\ (forall m, In m l1 -> p m = false)
      /\ l' = l1 ++ set_read n :: l2 /\ d = set_read n
  end.
Proof.
  induction l as [|x l IH]; simpl.
  - split; [reflexivity | intros n []].
  - destruct (p x) eqn:E.
    + exists [], x, l. repeat split; auto. intros m [].
    + destruct (findOneAndSetRead p l) as [l' [d|]].
      * destruct IH as (l1 & n & l2 & -> & Hp & Hfirst & -> & ->).
        exists (x :: l1), n, l2. repeat split; auto.
        intros m [<-|Hm]; auto.
      * destruct IH as [-> Hall]. split; [reflexivity|].
        intros n [<-|Hin]; auto.
Qed.

Lemma findOneAndDelete_spec p l :
  match findOneAndDelete p l with
  | (l', None) => l' = l /\ forall n, In n l -> p n = false
  | (l', Some d) =>
    exists l1 l2, l = l1 ++ d :: l2 /\ p d = true /\ l' = l1 ++ l2
  end.
Proof.
  induction l as [|x l IH]; simpl.
  - split; [reflexivity | intros n []].
  - destruct (p x) eqn:E.
    + exists [], l. auto.
    + destruct (findOneAndDelete p l) as [l' [d|]].
      * destruct IH as (l1 & l2 & -> & Hp & ->).
        exists (x :: l1), l2. auto.
      * destruct IH as [-> Hall]. split; [reflexivity|].
        intros n [<-|Hin]; auto.
Qed.

(** X23.  After [markAllNotificationsAsRead] the user has no unread
    notification; the count returned is the number of notifications that
    were unread; the notifications of other users are as they were. *)
Theorem markAll_clears_unread userId l :
  getUnreadNotificationCount userId (fst (markAllNotificationsAsRead userId l)) = 0
  /\ snd (markAllNotificationsAsRead userId l) =
     getUnreadNotificationCount userId l
  /\ others userId (fst (markAllNotificationsAsRead userId l)) = others userId l
  /\ forall v, v <> userId ->
               getUnreadNotificationCount
                 v (fst (markAllNotificationsAsRead userId l)) =
               getUnreadNotificationCount v l.
Proof.
  unfold markAllNotificationsAsRead, getUnreadNotificationCount, others.
  cbn [fst snd]. split; [|split; [reflexivity|split]].
  - rewrite filter_none; [reflexivity|].
    intros n Hin. apply in_map_iff in Hin. destruct Hin as [x [<- _]].
    destruct (unread_of userId x) eqn:E.
    + unfold unread_of. cbn. apply andb_false_r.
    + exact E.
  - apply filter_map_stable.
    + intros x. unfold unread_of.
      destruct (Nat.eqb (Doc.user x) userId) eqn:E; cbn [andb];
        [|rewrite E; reflexivity].
      destruct (negb (Doc.isRead x)); cbn; rewrite E; reflexivity.
    + intros x Hx. apply negb_true_iff in Hx. unfold unread_of.
      rewrite Hx. reflexivity.
  - intros v Hv. f_equal. apply filter_map_stable.
    + intros x. unfold unread_of at 2.
      destruct (Nat.eqb (Doc.user x) userId) eqn:E; cbn [andb]; [|reflexivity].
      apply Nat.eqb_eq in E.
      assert (Hx : Nat.eqb (Doc.user x) v = false)
        by (apply Nat.eqb_neq; congruence).
      destruct (negb (Doc.isRead x)); unfold unread_of; cbn; rewrite Hx;
        reflexivity.
    + intros x Hx. unfold unread_of in *. apply andb_true_iff in Hx.
      destruct Hx as [Hx _]. apply Nat.eqb_eq in Hx.
      assert (Hu : Nat.eqb (Doc.user x) userId = false)
        by (apply Nat.eqb_neq; congruence).
      rewrite Hu. reflexivity.
Qed.

(** X24.  [markNotificationAsRead] throws exactly when no notification has
    that id and that user, and then the collection is as it was: a user
    cannot mark a notification of another user.  Otherwise a notification
    of that id and that user was in the collection, the first of them is
    replaced by its read copy, and the copy is returned; the notifications
    of other users are as they were and the user's unread count does not
    grow. *)
Theorem markNotificationAsRead_owner notificationId userId l :
  match snd (markNotificationAsRead notificationId userId l) with
  | Throw _ =>
    (forall n, In n l ->
               ~ (Doc._id n = notificationId /\ Doc.user n = userId))
    /\ fst (markNotificationAsRead notificationId userId l) = l
  | Return d =>
    (exists l1 n l2,
        l = l1 ++ n :: l2
        /\ Doc._id n = notificationId /\ Doc.user n = userId
        /\ (forall m, In m l1 ->
                      ~ (Doc._id m = notificationId /\ Doc.user m = userId))
        /\ d = set_read n
        /\ fst (markNotificationAsRead notificationId userId l) =
           l1 ++ set_read n :: l2)
    /\ Doc._id d = notificationId /\ Doc.user d = userId /\ Doc.isRead d = true
    /\ In d (fst (markNotificationAsRead notificationId userId l))
    /\ others userId (fst (markNotificationAsRead notificationId userId l)) =
       others userId l
    /\ getUnreadNotificationCount
         userId (fst (markNotificationAsRead notificationId userId l))
       <= getUnreadNotificationCount userId l
  end.
Proof.
  unfold markNotificationAsRead.
  pose proof (findOneAndSetRead_spec (owned notificationId userId) l) as H.
  destruct (findOneAndSetRead (owned notificationId userId) l) as [l' [d|]];
    cbn [fst snd].
  - destruct H as (l1 & n & l2 & -> & Hp & Hfirst & -> & ->).
    unfold owned in Hp. apply andb_true_iff in Hp.
    rewrite !Nat.eqb_eq in Hp. destruct Hp as [Hid Hu].
    split.
    { exists l1, n, l2. repeat split; auto.
      intros m Hm [Hmid Hmu]. specialize (Hfirst m Hm). unfold owned in Hfirst.
      rewrite Hmid, Hmu, !Nat.eqb_refl in Hfirst. discriminate. }
    repeat split; auto.
    + apply in_or_app. right. left. reflexivity.
    + unfold others. rewrite !filter_app. cbn [filter set_read Doc.user].
      rewrite Hu, Nat.eqb_refl. reflexivity.
    + unfold getUnreadNotificationCount. rewrite !filter_app, !length_app.
      cbn [filter]. unfold unread_of at 2. cbn [set_read Doc.isRead Doc.user].
      rewrite andb_false_r.
      destruct (unread_of userId n); cbn [List.length]; lia.
  - destruct H as [-> Hall]. split; [|reflexivity].
    intros n Hin [Hid Hu]. specialize (Hall n Hin). unfold owned in Hall.
    rewrite Hid, Hu, !Nat.eqb_refl in Hall. discriminate.
Qed.

(** X25.  [deleteNotification] removes at most one notification, one of
    that id and that user: it throws, and leaves the collection as it was,
    when there is none; the notifications of other users are never
    removed. *)
Theorem deleteNotification_owner notificationId userId l :
  others userId (fst (deleteNotification notificationId userId l)) =
  others userId l
  /\ match snd (deleteNotification notificationId userId l) with
     | Throw _ =>
       (forall n, In n l ->
                  ~ (Doc._id n = notificationId /\ Doc.user n = userId))
       /\ fst (deleteNotification notificationId userId l) = l
     | Return _ =>
       exists l1 d l2,
         l = l1 ++ d :: l2
         /\ Doc._id d = notificationId /\ Doc.user d = userId
         /\ fst (deleteNotification notificationId userId l) = l1 ++ l2
     end.
Proof.
  unfold deleteNotification.
  pose proof (findOneAndDelete_spec (owned notificationId userId) l) as H.
  destruct (findOneAndDelete (owned notificationId userId) l) as [l' [d|]];
    cbn [fst snd].
  - destruct H as (l1 & l2 & -> & Hp & ->).
    unfold owned in Hp. apply andb_true_iff in Hp.
    rewrite !Nat.eqb_eq in Hp. destruct Hp as [Hid Hu]. split.
    + unfold others. rewrite !filter_app. cbn [filter].
      rewrite Hu, Nat.eqb_refl. reflexivity.
    + exists l1, d, l2. auto.
  - destruct H as [-> Hall]. split; [reflexivity|]. split; [|reflexivity].
    intros n Hin [Hid Hu]. specialize (Hall n Hin). unfold owned in Hall.
    rewrite Hid, Hu, !Nat.eqb_refl in Hall. discriminate.
Qed.

End NotificationFacts.

Section PaginationFacts.
Import SchedulingService NotificationService.

Lemma In_firstn_skipn {A : Type} (n k : nat) (l : list A) (x : A) :
  In x (firstn n (skipn k l)) -> In x l.
Proof.
  intros H.
  assert (H1 : In x (skipn k l)).
  { rewrite <- (firstn_skipn n (skipn k l)). apply in_or_app. left. exact H. }
  rewrite <- (firstn_skipn k l). apply in_or_app. right. exact H1.
Qed.

Lemma StronglySorted_skipn {A : Type} (R : A -> A -> Prop) (k : nat) (l : list A) :
  StronglySorted R l -> StronglySorted R (skipn k l).
Proof.
  revert l. induction k as [|k IH]; intros l Hs; [exact Hs|].
  destruct l as [|x l]; [constructor|]. simpl. apply IH.
  inversion Hs; assumption.
Qed.

Lemma StronglySorted_firstn {A : Type} (R : A -> A -> Prop) (n : nat) (l : list A) :
  StronglySorted R l -> StronglySorted R (firstn n l).
Proof.
  revert l. induction n as [|n IH]; intros l Hs; [constructor|].
  destruct l as [|x l]; [constructor|]. simpl.
  inversion Hs as [|? ? Hl Hall]; subst. constructor; [apply IH; exact Hl|].
  rewrite Forall_forall in *. intros y Hy. apply Hall.
  rewrite <- (firstn_skipn n l). apply in_or_app. left. exact Hy.
Qed.

Lemma StronglySorted_impl {A : Type} (R S : A -> A -> Prop) (l : list A) :
  (forall a b, R a b -> S a b) -> StronglySorted R l -> StronglySorted S l.
Proof.
  intros H Hs. induction Hs as [|x l Hl IH Hall]; constructor; [exact IH|].
  rewrite Forall_forall in *. intros y Hy. apply H. apply Hall. exact Hy.
Qed.

Lemma ceil_div_bounds (total lim : Z) :
  (0 < lim)%Z ->
  (total <= ceil_div total lim * lim < total + lim)%Z.
Proof.
  intros Hl. unfold ceil_div.
  pose proof (Z.div_mod (- total) lim ltac:(lia)) as Hdm.
  pose proof (Z.mod_pos_bound (- total) lim Hl) as Hm. nia.
Qed.

(** X26.  For a page number and a limit that are at least 1,
    [getUserNotifications] returns at most [limit] notifications, all of the
    user and matching the filters, newest first; [total] counts the
    matching notifications and [pages] is the least number of pages of
    [limit] notifications that hold them all; a page before the last is
    full and a page after the last is empty.  A missing, unparsable or zero
    page or limit counts as 1 and 10. *)
Theorem getUserNotifications_page userId filters pagination l :
  (1 <= or_default (Pagination.page pagination) 1)%Z ->
  (1 <= or_default (Pagination.limit pagination) 10)%Z ->
  exists pg,
    getUserNotifications userId filters pagination l = Return pg
    /\ page pg = or_default (Pagination.page pagination) 1
    /\ limit pg = or_default (Pagination.limit pagination) 10
    /\ total pg =
       Z.of_nat (List.length (filter (matches_filters userId filters) l))
    /\ (Z.of_nat (List.length (notifications pg)) <= limit pg)%Z
    /\ (forall n, In n (notifications pg) ->
                  In n l /\ matches_filters userId filters n = true)
    /\ StronglySorted (fun a b => (Doc.createdAt b <= Doc.createdAt a)%Z)
                      (notifications pg)
    /\ (total pg <= pages pg * limit pg < total pg + limit pg)%Z
    /\ ((page pg * limit pg <= total pg)%Z ->
        Z.of_nat (List.length (notifications pg)) = limit pg)
    /\ ((pages pg < page pg)%Z -> notifications pg = []).
Proof.
  intros Hp Hl. unfold getUserNotifications.
  set (p := or_default (Pagination.page pagination) 1) in *.
  set (lim := or_default (Pagination.limit pagination) 10) in *.
  set (found := filter (matches_filters userId filters) l).
  set (sorted := sort_by (fun n => (- Doc.createdAt n)%Z) found).
  assert (Hskip : Z.ltb ((p - 1) * lim) 0 = false) by (apply Z.ltb_ge; nia).
  rewrite Hskip. eexists. split; [reflexivity|]. cbn [page limit total
    notifications pages].
  assert (Hlen : List.length sorted = List.length found)
    by (apply Permutation_length, sort_by_perm).
  assert (Hn : List.length (firstn (Z.to_nat (Z.abs lim))
                                   (skipn (Z.to_nat ((p - 1) * lim)) sorted)) =
               Nat.min (Z.to_nat lim)
                       (List.length found - Z.to_nat ((p - 1) * lim))).
  { rewrite length_firstn, length_skipn, Hlen, Z.abs_eq by lia. reflexivity. }
  pose proof (ceil_div_bounds (Z.of_nat (List.length found)) lim ltac:(lia))
    as Hceil.
  repeat split; try reflexivity.
  - rewrite Hn. lia.
  - apply In_firstn_skipn in H. unfold sorted in H.
    apply In_sort_by in H. apply filter_In in H. apply H.
  - apply In_firstn_skipn in H. unfold sorted in H.
    apply In_sort_by in H. apply filter_In in H. apply H.
  - apply StronglySorted_firstn, StronglySorted_skipn.
    apply (StronglySorted_impl
             (fun a b => (- Doc.createdAt a <= - Doc.createdAt b)%Z)).
    + intros a b Hab. lia.
    + apply sort_by_sorted.
  - apply Hceil.
  - apply Hceil.
  - intros Hfull. rewrite Hn. nia.
  - intros Hlast.
    apply length_zero_iff_nil. rewrite Hn. nia.
Qed.

Lemma getUserNotifications_page_witness :
  exists pg,
    getUserNotifications
      2 {| Filters.isRead := None; Filters.type := None |}
      {| Pagination.page := None; Pagination.limit := Some 0%Z |} [] = Return pg
    /\ page pg = 1%Z /\ limit pg = 10%Z /\ pages pg = 0%Z.
Proof.
  destruct (getUserNotifications_page
              2 {| Filters.isRead := None; Filters.type := None |}
              {| Pagination.page := None; Pagination.limit := Some 0%Z |} [])
    as (pg & Hpg & Hp & Hl & _); [cbn; lia | cbn; lia |].
  exists pg. repeat split; try assumption.
  cbv in Hpg. injection Hpg as <-. reflexivity.
Defined.

End PaginationFacts.

(** ** Properties of the knowledge base service *)

Section KnowledgeFacts.
Import SchedulingService KnowledgeService.

Lemma lower_word_is_slug_char (c : ascii) :
  is_word (SupportRequestService.lower_ascii c) = true ->
  is_slug_char (SupportRequestService.lower_ascii c) = true.
Proof.
  destruct c as [[] [] [] [] [] [] [] []]; vm_compute; intros H;
    first [reflexivity | discriminate H].
Qed.

Lemma space_not_dash (c : ascii) :
  is_word c || is_space c = true -> c <> "-"%char.
Proof. intros H ->. vm_compute in H. discriminate. Qed.

(** Characters of the stripped lowercase string. *)
Lemma strip_lower_chars (s : string) :
  Forall (fun c => is_slug_char c = true \/ is_space c = true)
         (list_ascii_of_string
            (strip_non_word (SupportRequestService.toLowerCase s))).
Proof.
  induction s as [|c s IH]; simpl; [constructor|].
  destruct (is_word (SupportRequestService.lower_ascii c)) eqn:W; simpl.
  - constructor; [|exact IH]. left. apply lower_word_is_slug_char. exact W.
  - destruct (is_space (SupportRequestService.lower_ascii c)) eqn:S; simpl;
      [|exact IH].
    constructor; [|exact IH]. right. exact S.
Qed.

Lemma dash_spaces_chars (b : bool) (s : string) :
  Forall (fun c => is_slug_char c = true \/ is_space c = true)
         (list_ascii_of_string s) ->
  Forall (fun c => is_slug_char c = true)
         (list_ascii_of_string (dash_spaces b s)).
Proof.
  revert b. induction s as [|c s IH]; simpl; intros b H; [constructor|].
  inversion H as [|? ? Hc Hs]; subst.
  destruct (is_space c) eqn:S.
  - destruct b; [apply IH; exact Hs|]. simpl. constructor; [reflexivity|].
    apply IH. exact Hs.
  - simpl. constructor; [|apply IH; exact Hs].
    destruct Hc as [Hc|Hc]; [exact Hc | congruence].
Qed.

Lemma dash_spaces_no_double (b : bool) (s : string) :
  Forall (fun c => c <> "-"%char) (list_ascii_of_string s) ->
  SupportRequestService.includes "--" (dash_spaces b s) = false
  /\ (b = true -> String.prefix "-" (dash_spaces b s) = false).
Proof.
  revert b. induction s as [|c s IH]; intros b H; [split; reflexivity|].
  simpl in H. inversion H as [|? ? Hc Hs]; subst. simpl.
  destruct (is_space c) eqn:S.
  - destruct b.
    + apply IH. exact Hs.
    + destruct (IH true Hs) as [IH1 IH2]. split; [|discriminate].
      cbn [SupportRequestService.includes]. rewrite IH1, orb_false_r.
      cbn [String.prefix]. destruct (ascii_dec "-" "-"); [|contradiction].
      apply IH2. reflexivity.
  - destruct (IH false Hs) as [IH1 _].
    assert (Hp : forall r, String.prefix "-" (String c r) = false).
    { intros r. cbn [String.prefix].
      destruct (ascii_dec "-" c) as [E|E]; [congruence | reflexivity]. }
    split; [|intros _; apply Hp].
    cbn [SupportRequestService.includes]. rewrite IH1, orb_false_r.
    cbn [String.prefix]. destruct (ascii_dec "-" c) as [E|E];
      [congruence | reflexivity].
Qed.

Lemma strip_no_dash (s : string) :
  Forall (fun c => c <> "-"%char) (list_ascii_of_string (strip_non_word s)).
Proof.
  induction s as [|c s IH]; simpl; [constructor|].
  destruct (is_word c || is_space c) eqn:K; [|exact IH].
  simpl. constructor; [apply space_not_dash; exact K | exact IH].
Qed.

(** X27.  A slug holds lowercase letters, digits, underscores and dashes
    only, and never two dashes in a row. *)
Theorem slugify_shape (title : string) :
  Forall (fun c => is_slug_char c = true) (list_ascii_of_string (slugify title))
  /\ SupportRequestService.includes "--" (slugify title) = false.
Proof.
  unfold slugify. split.
  - apply dash_spaces_chars, strip_lower_chars.
  - apply dash_spaces_no_double, strip_no_dash.
Qed.

Lemma In_remove_category id l (c : Category) :
  In c l -> category_id c <> id -> In c (remove_category id l).
Proof.
  induction l as [|d l IH]; simpl; [auto|].
  intros [->|Hin] Hne.
  - destruct (Nat.eqb (category_id c) id) eqn:E;
      [apply Nat.eqb_eq in E; contradiction | left; reflexivity].
  - destruct (Nat.eqb (category_id d) id); [exact Hin|].
    right. apply IH; assumption.
Qed.

(** X28.  [deleteCategory] throws and changes nothing when an article
    belongs to the category or when the category is not stored; otherwise it
    returns true.  It never touches the articles, and in a base where every
    article belongs to a stored category this is still so after the call. *)
Theorem deleteCategory_keeps_articles categoryId b :
  articles (fst (deleteCategory categoryId b)) = articles b
  /\ ((exists a, In a (articles b) /\ category a = categoryId) ->
      deleteCategory categoryId b =
      (b, Throw "Cannot delete category with associated articles"))
  /\ (snd (deleteCategory categoryId b) <> Return true ->
      fst (deleteCategory categoryId b) = b)
  /\ (no_orphans b -> no_orphans (fst (deleteCategory categoryId b))).
Proof.
  unfold deleteCategory.
  destruct (Nat.ltb 0 (List.length
                         (filter (fun a => Nat.eqb (category a) categoryId)
                                 (articles b)))) eqn:Hcount.
  - repeat split; auto.
  - apply length_pos_false in Hcount.
    assert (Hnone : forall a, In a (articles b) -> category a <> categoryId).
    { intros a Hin Hc.
      assert (Ha : In a (filter (fun a => Nat.eqb (category a) categoryId)
                                (articles b)))
        by (apply filter_In; split; [exact Hin | apply Nat.eqb_eq; exact Hc]).
      rewrite Hcount in Ha. exact Ha. }
    destruct (find _ (categories b)) as [c|]; cbn [fst snd].
    + repeat split.
      * intros (a & Hin & Hc). exfalso. apply (Hnone a Hin Hc).
      * intros H. exfalso. apply H. reflexivity.
      * intros Hno a Hin. cbn [articles] in Hin.
        destruct (Hno a Hin) as (c' & Hc' & Hid). exists c'.
        split; [|exact Hid]. cbn [categories].
        apply In_remove_category; [exact Hc'|].
        rewrite Hid. apply Hnone. exact Hin.
    + repeat split; auto.
      intros (a & Hin & Hc). exfalso. apply (Hnone a Hin Hc).
Qed.

Lemma deleteCategory_keeps_articles_witness :
  deleteCategory
    1 {| categories := [{| category_id := 1; name := "Printers" |}];
         articles := [{| article_id := 5; title := "Paper jam"; category := 1 |}] |}
  = ({| categories := [{| category_id := 1; name := "Printers" |}];
        articles := [{| article_id := 5; title := "Paper jam"; category := 1 |}] |},
     Throw "Cannot delete category with associated articles").
Proof.
  apply (deleteCategory_keeps_articles
           1 {| categories := [{| category_id := 1; name := "Printers" |}];
                articles := [{| article_id := 5; title := "Paper jam";
                                category := 1 |}] |}).
  exists {| article_id := 5; title := "Paper jam"; category := 1 |}.
  split; [left|]; reflexivity.
Defined.

End KnowledgeFacts.
